(** * The workflow orchestration engine: executor, error classifier,
      remediation policy, planner and routing state machine.

    A shallow embedding of [src/nodes/executor.py], [src/nodes/remediation.py],
    [src/nodes/planner.py], [src/nodes/router.py], [src/core/graph.py] and of
    the registry lookup of [src/agents/base.py]; further down, of the input
    preparation of [src/agents/base.py], of [execute_task] of
    [src/agents/stock_selection.py] and of [get_tool] of [src/tools/base.py].

    Conventions of the embedding.
    - Python strings are [string]s (byte strings, UTF-8).  [str.lower()] is
      [Str.lower]: it maps the ASCII capitals and the two code points
      outside ASCII whose lowercase form has an ASCII letter in it (U+212A,
      U+0130) as Python does, and leaves the bytes of every other code point
      alone; the keywords of the engine are ASCII, so its tests cannot tell
      the difference.
    - The nodes mutate the shared [GraphState] in place and return a dict
      that echoes some of its fields.  A node is a function from the state
      to the mutated state and the returned [Update].  [step] continues with
      the mutated state, [superstep] with what the compiled graph keeps: the
      old state updated by the returned dict.  For the executor and for
      remediation the dict echoes every field the node has changed
      ([executor_update_echo], [remediation_update_echo]); the two differ
      only in the error record that the router, the planner and the answer
      generator append when their LLM call raises, which their dict does not
      carry.  A super-step is a step for the collaborators that do not raise
      ([superstep_quiet]), so what is proved of [run] for all collaborators
      holds of the compiled graph.
    - The compiled graph gives up after [recursion_limit] super-steps; [run]
      goes on.  Statements about the end of a run are made for runs that
      stay below the limit.
    - A task object is shared between [state.task_plan] and the lists the
      helpers return; a reference to it is its index in [task_plan].
    - Timestamps ([update_timestamp], [ErrorRecord.timestamp]) are never read
      by the engine and are left out. *)

From Stdlib Require Import String Ascii List Bool Arith Lia.
From stdpp Require Import gmap strings list.
Import ListNotations.

Local Open Scope string_scope.
Local Open Scope list_scope.

(** ** Strings: [str.lower()] and the [in] operator *)

Module Str.

Definition lower_ascii (c : ascii) : ascii :=
  let n := nat_of_ascii c in
  if Nat.leb 65 n && Nat.leb n 90 then ascii_of_nat (n + 32) else c.

(** [s.lower()] on the UTF-8 bytes of [s].  An ASCII capital goes to its
    small letter.  Two code points outside ASCII have a lowercase form with
    an ASCII letter in it, and go where Python sends them: U+212A (Kelvin
    sign, bytes 226 132 170) to [k], and U+0130 (capital I with dot above,
    bytes 196 176) to [i] followed by U+0307 (bytes 204 135).  Any other
    code point outside ASCII keeps its bytes: its lowercase form has no
    ASCII character in it, so a test for an ASCII keyword answers the same
    on both. *)
Fixpoint lower (s : string) : string :=
  match s with
  | EmptyString => EmptyString
  | String c r =>
      if Ascii.eqb c "226" then
        match r with
        | String c1 (String c2 r') =>
            if Ascii.eqb c1 "132" && Ascii.eqb c2 "170"
            then String "k" (lower r')
            else String c (lower r)
        | _ => String c (lower r)
        end
      else if Ascii.eqb c "196" then
        match r with
        | String c1 r' =>
            if Ascii.eqb c1 "176"
            then String "i" (String "204" (String "135" (lower r')))
            else String c (lower r)
        | EmptyString => String c EmptyString
        end
      else String (lower_ascii c) (lower r)
  end.

(** The first byte of [s] is one of the bytes that end the two sequences
    [lower] treats specially. *)
Definition continues (s : string) : bool :=
  match s with
  | String c _ => Ascii.eqb c "132" || Ascii.eqb c "170" || Ascii.eqb c "176"
  | EmptyString => false
  end.

(** [contains kw s] is Python's [kw in s]. *)
Fixpoint contains (kw s : string) : bool :=
  String.prefix kw s ||
  match s with
  | EmptyString => false
  | String _ r => contains kw r
  end.

(** [any(keyword in message for keyword in keywords)] *)
Definition any_in (keywords : list string) (message : string) : bool :=
  existsb (fun keyword => contains keyword message) keywords.

(** [x in [a, b, ...]] on strings. *)
Definition mem (x : string) (l : list string) : bool :=
  existsb (String.eqb x) l.

Fixpoint has_char (c : ascii) (s : string) : bool :=
  match s with
  | EmptyString => false
  | String d r => Ascii.eqb c d || has_char c r
  end.

End Str.

(** ** Data model ([core/state.py] is not part of the sources; the records
       follow the constructor calls and attribute accesses of the nodes and
       of [tests/test_basic.py]) *)

Inductive TaskStatus := pending | running | completed | failed.

Definition TaskStatus_eqb (a b : TaskStatus) : bool :=
  match a, b with
  | pending, pending | running, running
  | completed, completed | failed, failed => true
  | _, _ => false
  end.

(** The payload an agent returns; the engine never inspects it. *)
Definition Result := string.

Record TaskDefinition := mkTask {
  task_id : string;
  agent : string;
  tool : string;
  inputs : list (string * string);
  depends_on : option string;
  status : TaskStatus
}.

Record ErrorRecord := mkError {
  err_task_id : string;
  err_agent : string;
  err_tool : string;
  error_type : string;
  error_message : string;
  retry_count : nat
}.

Record GraphState := mkState {
  original_query : string;
  session_id : string;
  query_complexity : option string;
  task_plan : list TaskDefinition;
  agent_results : gmap string Result;
  error_log : list ErrorRecord;
  final_answer : string
}.

(** [GraphState(original_query=query, session_id=session_id)] *)
Definition initial_state (query session : string) : GraphState :=
  mkState query session None [] ∅ [] "".

(** [TaskDefinition(task_id=.., agent=.., tool=.., inputs=.., depends_on=..)];
    [status] defaults to ["pending"]. *)
Definition new_task (tid ag tl : string) (inp : list (string * string))
    (dep : option string) : TaskDefinition :=
  mkTask tid ag tl inp dep pending.

(** *** Field assignments *)

Definition with_status (st : TaskStatus) (t : TaskDefinition) : TaskDefinition :=
  mkTask (task_id t) (agent t) (tool t) (inputs t) (depends_on t) st.

Definition with_retry_count (n : nat) (e : ErrorRecord) : ErrorRecord :=
  mkError (err_task_id e) (err_agent e) (err_tool e) (error_type e)
          (error_message e) n.

Definition with_task_plan (p : list TaskDefinition) (s : GraphState) : GraphState :=
  mkState (original_query s) (session_id s) (query_complexity s) p
          (agent_results s) (error_log s) (final_answer s).

Definition with_agent_results (r : gmap string Result) (s : GraphState) : GraphState :=
  mkState (original_query s) (session_id s) (query_complexity s) (task_plan s)
          r (error_log s) (final_answer s).

Definition with_error_log (l : list ErrorRecord) (s : GraphState) : GraphState :=
  mkState (original_query s) (session_id s) (query_complexity s) (task_plan s)
          (agent_results s) l (final_answer s).

Definition with_query_complexity (c : option string) (s : GraphState) : GraphState :=
  mkState (original_query s) (session_id s) c (task_plan s)
          (agent_results s) (error_log s) (final_answer s).

Definition with_final_answer (a : string) (s : GraphState) : GraphState :=
  mkState (original_query s) (session_id s) (query_complexity s) (task_plan s)
          (agent_results s) (error_log s) a.

(** [task.status = st] for the task object at index [i] of the plan. *)
Definition set_task_status (i : nat) (st : TaskStatus) (s : GraphState) : GraphState :=
  with_task_plan (alter (with_status st) i (task_plan s)) s.

(** *** Methods of [GraphState] *)

Fixpoint indexed_from {A} (i : nat) (l : list A) : list (nat * A) :=
  match l with
  | [] => []
  | x :: r => (i, x) :: indexed_from (S i) r
  end.

(** Modelled from the spec: [GraphState.get_pending_tasks] ([core/state.py]
    is missing): the tasks of the plan whose status is PENDING, in plan order.
    Each task comes with its index in [task_plan], which stands for the
    reference to the shared object. *)
Definition get_pending_tasks (s : GraphState) : list (nat * TaskDefinition) :=
  List.filter (fun p => TaskStatus_eqb (status (snd p)) pending)
              (indexed_from 0 (task_plan s)).

(** Modelled from the spec: [GraphState.get_task_by_id] ([core/state.py] is
    missing): the first task of the plan with that id, or [None]. *)
Definition get_task_by_id (s : GraphState) (tid : string) : option (nat * TaskDefinition) :=
  List.find (fun p => String.eqb (task_id (snd p)) tid)
            (indexed_from 0 (task_plan s)).

(** Modelled from the spec: [GraphState.add_error] ([core/state.py] is
    missing): appends an [ErrorRecord]; [retry_count] defaults to 0. *)
Definition add_error (tid ag tl ety msg : string) (rc : nat) (s : GraphState) : GraphState :=
  with_error_log (error_log s ++ [mkError tid ag tl ety msg rc]) s.

(** Modelled from the spec: [GraphState.mark_task_completed] ([core/state.py]
    is missing): "On success: status=COMPLETED, results[task_id] = value". *)
Definition mark_task_completed (tid : string) (r : Result) (s : GraphState) : GraphState :=
  let s' := match get_task_by_id s tid with
            | Some (i, _) => set_task_status i completed s
            | None => s
            end in
  with_agent_results (<[tid := r]> (agent_results s')) s'.

(** Modelled from the spec: [GraphState.mark_task_failed] ([core/state.py] is
    missing): "On provider failure: status=FAILED". *)
Definition mark_task_failed (tid : string) (s : GraphState) : GraphState :=
  match get_task_by_id s tid with
  | Some (i, _) => set_task_status i failed s
  | None => s
  end.

(** Modelled from the spec: [GraphState.has_critical_errors] ([core/state.py]
    is missing).  The spec leaves the predicate configurable; the only
    categories the sources name as critical are the two that
    [_analyze_error_patterns] counts.  The engine below takes the predicate
    as a parameter; this instance is used for concrete runs. *)
Definition placeholder_critical (s : GraphState) : bool :=
  existsb (fun e => Str.mem (error_type e) ["UNRECOVERABLE_ERROR"; "AUTH_FAILURE"])
          (error_log s).

(** ** The dict a node returns *)

Record Update := mkUpdate {
  upd_query_complexity : option (option string);
  upd_task_plan : option (list TaskDefinition);
  upd_agent_results : option (gmap string Result);
  upd_error_log : option (list ErrorRecord);
  upd_final_answer : option string
}.

(** [return {}] *)
Definition empty_update : Update := mkUpdate None None None None None.

Definition apply_update (u : Update) (s : GraphState) : GraphState :=
  mkState (original_query s) (session_id s)
          (default (query_complexity s) (upd_query_complexity u))
          (default (task_plan s) (upd_task_plan u))
          (default (agent_results s) (upd_agent_results u))
          (default (error_log s) (upd_error_log u))
          (default (final_answer s) (upd_final_answer u)).

(** ** Collaborators *)

(** What a call to a collaborator does: return a value or raise. *)
Inductive Outcome (A : Type) :=
| Returned (v : A)
| Raised (message : string).
Arguments Returned {A} v.
Arguments Raised {A} message.

(** An agent instance: [agent.execute_task(state, task)]. *)
Definition Agent := GraphState -> TaskDefinition -> Outcome Result.

(** One entry of [function_args["tasks"]] in the planner's reply. *)
Record TaskData := mkTaskData {
  td_task_id : string;
  td_agent : string;
  td_tool : string;
  td_inputs : list (string * string);
  td_depends_on : option string
}.

Record Collaborators := mkCollab {
  (** [state.has_critical_errors()] *)
  has_critical_errors : GraphState -> bool;
  (** [_AGENT_REGISTRY] *)
  registry : gmap string Agent;
  (** the router's LLM: [response.content.strip().upper()] for a query *)
  classifier_llm : string -> Outcome string;
  (** the planner's LLM: the parsed [function_call] arguments, [None] when
      the reply carries no function call; a reply that does not parse into
      task specifications counts as raising *)
  planner_llm : string -> Outcome (option (list TaskData));
  (** the synthesiser's LLM: [response.content.strip()] *)
  answer_llm : GraphState -> Outcome string;
  (** the text templates of [answer.py] and [fallback.py] *)
  fallback_answer_text : GraphState -> string;
  fallback_node_text : GraphState -> string
}.

(** ** [nodes/executor.py] *)

(** [_classify_error(error)]; [message] is [str(error)]. *)
Definition _classify_error (message : string) : string :=
  let error_message := Str.lower message in
  if Str.any_in ["timeout"; "connection"; "network"] error_message then
    "NETWORK_ERROR"
  else if Str.any_in ["rate limit"; "quota"; "too many requests"] error_message then
    "RATE_LIMIT_ERROR"
  else if Str.any_in ["unauthorized"; "authentication"; "api key"] error_message then
    "AUTH_ERROR"
  else if Str.any_in ["invalid"; "not found"; "does not exist"] error_message then
    "INVALID_INPUT"
  else if Str.any_in ["agent"; "tool"] error_message then
    "AGENT_ERROR"
  else if Str.any_in ["hallucination"; "format"; "parsing"] error_message then
    "LLM_ERROR"
  else
    "UNKNOWN_ERROR".

(** Python truthiness of [task.depends_on]: [None] and the empty string are
    false. *)
Definition truthy (o : option string) : bool :=
  match o with
  | None => false
  | Some x => negb (String.eqb x "")
  end.

(** [task.depends_on in completed_task_ids] *)
Definition in_results (s : GraphState) (o : option string) : bool :=
  match o with
  | None => false
  | Some x => bool_decide (is_Some (agent_results s !! x))
  end.

(** [_get_next_executable_task(state, pending_tasks)] *)
Definition _get_next_executable_task (s : GraphState)
    (pending_tasks : list (nat * TaskDefinition)) : option (nat * TaskDefinition) :=
  List.find (fun p => negb (truthy (depends_on (snd p)))
                      || in_results s (depends_on (snd p)))
            pending_tasks.

(** The exception message of the executor when the registry has no agent. *)
Definition agent_not_found (name : string) : string :=
  "Agent '" +:+ name +:+ "' not found".

Section Engine.

Variable C : Collaborators.

(** [get_agent(name)] of [agents/base.py] *)
Definition get_agent (name : string) : option Agent := registry C !! name.

(** The state the executor has built when it calls the agent: the chosen
    task is RUNNING. *)
Definition running_state (s : GraphState) (i : nat) : GraphState :=
  set_task_status i running s.

(** The body of the [try] block up to the agent's return. *)
Definition dispatch (s1 : GraphState) (current_task : TaskDefinition) : Outcome Result :=
  match get_agent (agent current_task) with
  | None => Raised (agent_not_found (agent current_task))
  | Some a => a s1 current_task
  end.

(** [agent_executor_node(state)] *)
Definition agent_executor_node (s : GraphState) : GraphState * Update :=
  let pending_tasks := get_pending_tasks s in
  match pending_tasks with
  | [] => (s, empty_update)
  | _ :: _ =>
    match _get_next_executable_task s pending_tasks with
    | None => (s, empty_update)
    | Some (i, t) =>
      let s1 := running_state s i in
      let current_task := with_status running t in
      match dispatch s1 current_task with
      | Returned result =>
          let s2 := mark_task_completed (task_id current_task) result s1 in
          (s2, mkUpdate None (Some (task_plan s2)) (Some (agent_results s2)) None None)
      | Raised e =>
          let s2 := mark_task_failed (task_id current_task) s1 in
          let error_type := _classify_error e in
          let s3 := add_error (task_id current_task) (agent current_task)
                              (tool current_task) error_type e 0 s2 in
          (s3, mkUpdate None (Some (task_plan s3)) None (Some (error_log s3)) None)
      end
    end
  end.

(** [_should_retry_task(state, task_id)] *)
Definition _should_retry_task (s : GraphState) (tid : string) : bool :=
  let task_errors := List.filter (fun e => String.eqb (err_task_id e) tid) (error_log s) in
  match last task_errors with
  | None => false
  | Some latest_error =>
      if Nat.leb 3 (retry_count latest_error) then false
      else Str.mem (error_type latest_error)
                   ["NETWORK_ERROR"; "RATE_LIMIT_ERROR"; "TIMEOUT_ERROR"]
  end.

(** ** [nodes/remediation.py] *)

Inductive Action := retry | replan | continue | complete.

(** [_determine_remediation_action(state, error)] *)
Definition _determine_remediation_action (s : GraphState) (error : ErrorRecord) : Action :=
  if has_critical_errors C s then complete
  else if Str.mem (error_type error) ["API_TIMEOUT"; "NETWORK_ERROR"]
          && Nat.ltb (retry_count error) 3 then retry
  else if String.eqb (error_type error) "INVALID_STOCK_CODE"
          && Nat.ltb 1 (length (task_plan s)) then replan
  else if Str.mem (error_type error) ["AGENT_HALLUCINATION"; "LLM_ERROR"]
          && Nat.ltb (retry_count error) 2 then retry
  else match get_pending_tasks s with
       | _ :: _ => continue
       | [] => complete
       end.

(** In the handlers [error] is the object [state.error_log[-1]]; assigning
    to its [retry_count] changes the last record of the log. *)
Definition set_latest_retry_count (n : nat) (s : GraphState) : GraphState :=
  with_error_log (alter (with_retry_count n) (length (error_log s) - 1) (error_log s)) s.

(** [_handle_retry(state, error)] *)
Definition _handle_retry (s : GraphState) (error : ErrorRecord) : GraphState * Update :=
  let s' :=
    match get_task_by_id s (err_task_id error) with
    | Some (i, _) =>
        let s1 := set_task_status i pending s in
        let s2 := set_latest_retry_count (retry_count error + 1) s1 in
        add_error (err_task_id error) (err_agent error) (err_tool error)
                  "RETRY_ATTEMPT"
                  ("Retrying task due to " +:+ error_type error)
                  (retry_count error + 1) s2
    | None => s
    end in
  (s', mkUpdate None (Some (task_plan s')) None (Some (error_log s')) None).

(** [_handle_replan(state, error)] *)
Definition _handle_replan (s : GraphState) (error : ErrorRecord) : GraphState * Update :=
  let s1 := match get_task_by_id s (err_task_id error) with
            | Some (i, _) => set_task_status i failed s
            | None => s
            end in
  let s2 := with_task_plan [] s1 in
  let s3 := add_error "replanning" "remediation" "replan" "REPLAN_TRIGGERED"
                      ("Replanning triggered by " +:+ error_type error
                       +:+ " in task " +:+ err_task_id error) 0 s2 in
  (s3, mkUpdate None (Some (task_plan s3)) None (Some (error_log s3)) None).

(** [_handle_continue(state, error)] *)
Definition _handle_continue (s : GraphState) (error : ErrorRecord) : GraphState * Update :=
  let s1 := match get_task_by_id s (err_task_id error) with
            | Some (i, _) => set_task_status i failed s
            | None => s
            end in
  let s2 := add_error (err_task_id error) "remediation" "continue" "TASK_SKIPPED"
                      ("Skipping task " +:+ err_task_id error
                       +:+ " due to unrecoverable " +:+ error_type error) 0 s1 in
  (s2, mkUpdate None (Some (task_plan s2)) None (Some (error_log s2)) None).

(** [_handle_complete(state, error)] *)
Definition _handle_complete (s : GraphState) (error : ErrorRecord) : GraphState * Update :=
  let s1 := with_task_plan
              (List.map (fun t => if TaskStatus_eqb (status t) pending
                                  then with_status failed t else t)
                        (task_plan s)) s in
  let s2 := add_error "completion" "remediation" "complete" "FORCED_COMPLETION"
                      "Completing processing due to critical errors or max retries reached"
                      0 s1 in
  (s2, mkUpdate None (Some (task_plan s2)) None (Some (error_log s2)) None).

(** [remediation_node(state)] *)
Definition remediation_node (s : GraphState) : GraphState * Update :=
  match last (error_log s) with
  | None => (s, empty_update)
  | Some latest_error =>
      match _determine_remediation_action s latest_error with
      | retry => _handle_retry s latest_error
      | replan => _handle_replan s latest_error
      | continue => _handle_continue s latest_error
      | complete => _handle_complete s latest_error
      end
  end.

(** ** [nodes/planner.py] *)

(** [_create_fallback_plan(query)] *)
Definition _create_fallback_plan (query : string) : list TaskDefinition :=
  [new_task "fallback_task_1" "知识库agent" "金融知识查询" [("query", query)] None].

(** [_validate_task_plan(tasks)] *)
Definition _validate_task_plan (tasks : list TaskDefinition) : bool :=
  let task_ids := List.map task_id tasks in
  if negb (Nat.eqb (length task_ids) (length (remove_dups task_ids))) then false
  else if existsb (fun t => truthy (depends_on t)
                            && negb (match depends_on t with
                                     | Some d => Str.mem d task_ids
                                     | None => false
                                     end)) tasks then false
  else if existsb (fun t => match depends_on t with
                            | Some d => String.eqb d (task_id t)
                            | None => false
                            end) tasks then false
  else true.

Definition task_of_data (d : TaskData) : TaskDefinition :=
  new_task (td_task_id d) (td_agent d) (td_tool d) (td_inputs d) (td_depends_on d).

(** The [except] branch of [planner_node]. *)
Definition planner_except (s : GraphState) (e : string) : GraphState * Update :=
  let fallback_plan := _create_fallback_plan (original_query s) in
  let s1 := with_task_plan fallback_plan s in
  let s2 := add_error "planning" "planner" "llm_planning" "PLANNING_ERROR" e 0 s1 in
  (s2, mkUpdate None (Some fallback_plan) None None None).

(** [planner_node(state)].  The prompt is a function of [original_query]
    alone, so the LLM is applied to the query. *)
Definition planner_node (s : GraphState) : GraphState * Update :=
  match planner_llm C (original_query s) with
  | Returned (Some tasks) =>
      let task_plan := List.map task_of_data tasks in
      (with_task_plan task_plan s, mkUpdate None (Some task_plan) None None None)
  | Returned None => planner_except s "LLM did not return a valid function call"
  | Raised e => planner_except s e
  end.

(** ** [nodes/router.py], [nodes/answer.py], [nodes/fallback.py] *)

(** [router_node(state)] *)
Definition router_node (s : GraphState) : GraphState * Update :=
  match classifier_llm C (original_query s) with
  | Returned content =>
      let classification :=
        if Str.mem content ["SIMPLE"; "COMPLEX"; "OOS"] then content else "COMPLEX" in
      (with_query_complexity (Some classification) s,
       mkUpdate (Some (Some classification)) None None None None)
  | Raised e =>
      let s1 := with_query_complexity (Some "COMPLEX") s in
      let s2 := add_error "router_classification" "router" "llm_classification"
                          "CLASSIFICATION_ERROR" e 0 s1 in
      (s2, mkUpdate (Some (Some "COMPLEX")) None None None None)
  end.

(** [answer_generator_node(state)] *)
Definition answer_generator_node (s : GraphState) : GraphState * Update :=
  match answer_llm C s with
  | Returned final =>
      (with_final_answer final s, mkUpdate None None None None (Some final))
  | Raised e =>
      let fallback_answer := fallback_answer_text C s in
      let s1 := with_final_answer fallback_answer s in
      let s2 := add_error "answer_generation" "answer_generator" "llm_synthesis"
                          "SYNTHESIS_ERROR" e 0 s1 in
      (s2, mkUpdate None None None None (Some fallback_answer))
  end.

(** [fallback_node(state)] *)
Definition fallback_node (s : GraphState) : GraphState * Update :=
  let fallback_answer := fallback_node_text C s in
  (with_final_answer fallback_answer s, mkUpdate None None None None (Some fallback_answer)).

(** ** [core/graph.py] *)

Inductive Node :=
| router | planner | agent_executor | remediation | answer_generator | fallback | END.

Inductive ClassRoute := route_simple | route_complex | route_oos.
Inductive ExecRoute := exec_continue | exec_error | exec_complete.

(** [_route_after_classification(state)] *)
Definition _route_after_classification (s : GraphState) : ClassRoute :=
  match query_complexity s with
  | Some c => if String.eqb c "SIMPLE" then route_simple
              else if String.eqb c "COMPLEX" then route_complex
              else route_oos
  | None => route_oos
  end.

(** [_route_after_execution(state)] *)
Definition _route_after_execution (s : GraphState) : ExecRoute :=
  match last (error_log s) with
  | Some e =>
      if Nat.eqb (retry_count e) 0 then exec_error
      else match get_pending_tasks s with
           | _ :: _ => exec_continue
           | [] => exec_complete
           end
  | None =>
      match get_pending_tasks s with
      | _ :: _ => exec_continue
      | [] => exec_complete
      end
  end.

(** [_route_after_remediation(state)] *)
Definition _route_after_remediation (s : GraphState) : Action :=
  match last (error_log s) with
  | None => complete
  | Some latest_error =>
      if has_critical_errors C s then complete
      else if Str.mem (error_type latest_error) ["API_TIMEOUT"; "NETWORK_ERROR"]
              && Nat.ltb (retry_count latest_error) 3 then retry
      else if String.eqb (error_type latest_error) "INVALID_STOCK_CODE"
              && Nat.ltb 1 (length (task_plan s)) then replan
      else match get_pending_tasks s with
           | _ :: _ => continue
           | [] => complete
           end
  end.

(** The edge tables of [_build_graph]. *)
Definition edge_after_classification (r : ClassRoute) : Node :=
  match r with
  | route_simple => agent_executor
  | route_complex => planner
  | route_oos => fallback
  end.

Definition edge_after_execution (r : ExecRoute) : Node :=
  match r with
  | exec_continue => agent_executor
  | exec_error => remediation
  | exec_complete => answer_generator
  end.

Definition edge_after_remediation (r : Action) : Node :=
  match r with
  | retry => agent_executor
  | replan => planner
  | continue => agent_executor
  | complete => answer_generator
  end.

(** One super-step of the compiled graph: run the node on the state, then
    follow the edge chosen on the state the node leaves. *)
Definition step (c : Node * GraphState) : Node * GraphState :=
  let '(n, s) := c in
  match n with
  | router =>
      let s' := fst (router_node s) in
      (edge_after_classification (_route_after_classification s'), s')
  | planner => (agent_executor, fst (planner_node s))
  | agent_executor =>
      let s' := fst (agent_executor_node s) in
      (edge_after_execution (_route_after_execution s'), s')
  | remediation =>
      let s' := fst (remediation_node s) in
      (edge_after_remediation (_route_after_remediation s'), s')
  | answer_generator => (END, fst (answer_generator_node s))
  | fallback => (END, fst (fallback_node s))
  | END => (END, s)
  end.

Fixpoint run (fuel : nat) (c : Node * GraphState) : Node * GraphState :=
  match fuel with
  | 0 => c
  | S k => run k (step c)
  end.

(** [FinancialAnalysisGraph.invoke(query, session_id)]: the configuration
    the graph starts from. *)
Definition invoke_start (query session : string) : Node * GraphState :=
  (router, initial_state query session).

End Engine.

(** [self.app.invoke(initial_state, config=config)].  [invoke] is called
    with a query and a session id alone and puts no [recursion_limit] into
    [config], so the compiled graph runs with LangGraph's default of 25
    super-steps and raises [GraphRecursionError] when the run has not ended
    by then.  [run] has no such limit: what is said of a run up to some step
    holds of the program as long as it runs, and a statement that a run
    comes to its end is made for runs of fewer steps than the limit. *)
Definition recursion_limit : nat := 25.

(** ** What the compiled graph keeps of a node's work *)

(** The compiled [StateGraph] holds the state in its channels: it hands a
    node a [GraphState] built from them and writes the dict the node returns
    back to them.  A field the node has changed in place and does not return
    is not kept.  [superstep] is [step] with the state continued that way. *)
Definition superstep (C : Collaborators) (c : Node * GraphState) : Node * GraphState :=
  let '(n, s) := c in
  match n with
  | router =>
      let s' := apply_update (snd (router_node C s)) s in
      (edge_after_classification (_route_after_classification s'), s')
  | planner => (agent_executor, apply_update (snd (planner_node C s)) s)
  | agent_executor =>
      let s' := apply_update (snd (agent_executor_node C s)) s in
      (edge_after_execution (_route_after_execution s'), s')
  | remediation =>
      let s' := apply_update (snd (remediation_node C s)) s in
      (edge_after_remediation (_route_after_remediation C s'), s')
  | answer_generator => (END, apply_update (snd (answer_generator_node C s)) s)
  | fallback => (END, apply_update (snd (fallback_node C s)) s)
  | END => (END, s)
  end.

Fixpoint supersteps (C : Collaborators) (fuel : nat) (c : Node * GraphState)
    : Node * GraphState :=
  match fuel with
  | 0 => c
  | S k => supersteps C k (superstep C c)
  end.

(** The collaborators whose LLM calls do not raise: where a call of [C]
    raises (or the planner's reply has no function call), the call returns
    what the [except] branch of the node puts in its place. *)
Definition quiet (C : Collaborators) : Collaborators :=
  mkCollab (has_critical_errors C) (registry C)
    (fun query => match classifier_llm C query with
                  | Returned content => Returned content
                  | Raised _ => Returned "COMPLEX"
                  end)
    (fun query => match planner_llm C query with
                  | Returned (Some tasks) => Returned (Some tasks)
                  | _ => Returned (Some [mkTaskData "fallback_task_1" "知识库agent"
                                                    "金融知识查询" [("query", query)]
                                                    None])
                  end)
    (fun s => match answer_llm C s with
              | Returned final => Returned final
              | Raised _ => Returned (fallback_answer_text C s)
              end)
    (fallback_answer_text C) (fallback_node_text C).

(** ** The taxonomy as a priority table *)

(** First match wins: the type of the first row one of whose keywords occurs
    in the message, else [default]. *)
Fixpoint first_match (table : list (list string * string)) (default message : string) : string :=
  match table with
  | [] => default
  | (keywords, ty) :: rest =>
      if Str.any_in keywords message then ty else first_match rest default message
  end.

(** The rows of [_classify_error], top to bottom. *)
Definition source_taxonomy : list (list string * string) :=
  [ (["timeout"; "connection"; "network"], "NETWORK_ERROR");
    (["rate limit"; "quota"; "too many requests"], "RATE_LIMIT_ERROR");
    (["unauthorized"; "authentication"; "api key"], "AUTH_ERROR");
    (["invalid"; "not found"; "does not exist"], "INVALID_INPUT");
    (["agent"; "tool"], "AGENT_ERROR");
    (["hallucination"; "format"; "parsing"], "LLM_ERROR") ].

(** The rows as the specification words them: "rate limit/quota",
    "unauthorized/auth/api key", "parsing/format/hallucination". *)
Definition specified_taxonomy : list (list string * string) :=
  [ (["timeout"; "connection"; "network"], "NETWORK_ERROR");
    (["rate limit"; "quota"], "RATE_LIMIT_ERROR");
    (["unauthorized"; "auth"; "api key"], "AUTH_ERROR");
    (["invalid"; "not found"; "does not exist"], "INVALID_INPUT");
    (["agent"; "tool"], "AGENT_ERROR");
    (["parsing"; "format"; "hallucination"], "LLM_ERROR") ].

Definition classify_as_specified (message : string) : string :=
  first_match specified_taxonomy "UNKNOWN_ERROR" (Str.lower message).

(** The keywords of the three rows that are tested before the
    invalid / not found / does not exist row. *)
Definition higher_priority_keywords : list string :=
  ["timeout"; "connection"; "network";
   "rate limit"; "quota"; "too many requests";
   "unauthorized"; "authentication"; "api key"].

(** The three rows that are tested before the invalid / not found / does
    not exist row. *)
Definition earlier_rows : list (list string * string) := firstn 3 source_taxonomy.

(** ** Observations on runs *)

(** The number of RETRY_ATTEMPT marker records of a task in a log. *)
Definition count_retry_markers (tid : string) (log : list ErrorRecord) : nat :=
  length (List.filter (fun e => String.eqb (err_task_id e) tid
                                && String.eqb (error_type e) "RETRY_ATTEMPT") log).


(** A pending task is blocked when it names a non-empty dependency that has
    no result. *)
Definition unsatisfied (s : GraphState) (t : TaskDefinition) : Prop :=
  exists x, depends_on t = Some x /\ x <> "" /\ agent_results s !! x = None.

(** The states that exist while one step runs: for the executor, the state
    handed to the agent (with the chosen task RUNNING), and for every node
    the state it leaves. *)
Definition states_of_step (C : Collaborators) (c : Node * GraphState) : list GraphState :=
  match c with
  | (agent_executor, s) =>
      match get_pending_tasks s with
      | [] => []
      | _ :: _ =>
          match _get_next_executable_task s (get_pending_tasks s) with
          | Some (i, _) => [running_state s i]
          | None => []
          end
      end
  | _ => []
  end ++ [snd (step C c)].

(** The executor applied [n] times in a row. *)
Definition executor_iter (C : Collaborators) (n : nat) (s : GraphState) : GraphState :=
  Nat.iter n (fun x => fst (agent_executor_node C x)) s.

(** ** Concrete collaborators and plans *)

Definition failing_agent (message : string) : Agent := fun _ _ => Raised message.

Definition answering_agent : Agent := fun _ t => Returned ("result of " +:+ task_id t).

Definition scenario_with (critical : GraphState -> bool) (agents : gmap string Agent)
    (plan : Outcome (option (list TaskData))) : Collaborators :=
  mkCollab critical agents
           (fun _ => Returned "COMPLEX")
           (fun _ => plan)
           (fun _ => Returned "answer")
           (fun _ => "summary") (fun _ => "sorry").

Definition scenario : gmap string Agent -> Outcome (option (list TaskData)) -> Collaborators :=
  scenario_with placeholder_critical.

(** A reply with a task and a second one that depends on it. *)
Definition chained_plan : list TaskData :=
  [mkTaskData "T1" "A" "x" [] None; mkTaskData "T2" "A" "x" [] (Some "T1")].

(** Scenario A of the specification: T2 depends on T1, and T1 fails with a
    message no keyword matches. *)
Definition blocked_with (critical : GraphState -> bool) : Collaborators :=
  scenario_with critical (<["A" := failing_agent "boom"]> ∅)
                (Returned (Some chained_plan)).

Definition blocked_scenario : Collaborators := blocked_with placeholder_critical.

(** A single task whose provider fails with a network error on every call. *)
Definition flaky_with (critical : GraphState -> bool) : Collaborators :=
  scenario_with critical (<["A" := failing_agent "Connection timeout"]> ∅)
                (Returned (Some [mkTaskData "T1" "A" "x" [] None])).

Definition flaky_scenario : Collaborators := flaky_with placeholder_critical.

(** A planner reply that repeats a task id and makes the task depend on
    itself. *)
Definition duplicate_plan : list TaskData :=
  [mkTaskData "T1" "A" "x" [] None; mkTaskData "T1" "A" "x" [] (Some "T1")].

Definition duplicate_scenario : Collaborators :=
  scenario (<["A" := answering_agent]> ∅) (Returned (Some duplicate_plan)).

(** No agent is registered. *)
Definition empty_registry_scenario : Collaborators :=
  scenario ∅ (Returned None).


Definition state_of (plan : list TaskDefinition) (log : list ErrorRecord) : GraphState :=
  mkState "q" "s" (Some "COMPLEX") plan ∅ log "".

(** The log of [flaky_scenario] after [n] rounds of fail-and-retry. *)
Definition retried_log (n : nat) : list ErrorRecord :=
  List.concat (List.repeat
    [mkError "T1" "A" "x" "NETWORK_ERROR" "Connection timeout" 1;
     mkError "T1" "A" "x" "RETRY_ATTEMPT" "Retrying task due to NETWORK_ERROR" 1] n).

Definition retried_state (n : nat) : GraphState :=
  state_of [mkTask "T1" "A" "x" [] None pending] (retried_log n).

(** The state the executor leaves when the task fails once more. *)
Definition failed_state (n : nat) : GraphState :=
  state_of [mkTask "T1" "A" "x" [] None failed]
           (retried_log n
            ++ [mkError "T1" "A" "x" "NETWORK_ERROR" "Connection timeout" 0]).

(** The log of [blocked_scenario] after T1 failed and was skipped [n] times. *)
Definition skipped_log (n : nat) : list ErrorRecord :=
  mkError "T1" "A" "x" "UNKNOWN_ERROR" "boom" 0
  :: mkError "T1" "remediation" "continue" "TASK_SKIPPED"
             "Skipping task T1 due to unrecoverable UNKNOWN_ERROR" 0
  :: List.repeat (mkError "T1" "remediation" "continue" "TASK_SKIPPED"
                          "Skipping task T1 due to unrecoverable TASK_SKIPPED" 0) n.

Definition skipped_state (n : nat) : GraphState :=
  state_of [mkTask "T1" "A" "x" [] None failed;
            mkTask "T2" "A" "x" [] (Some "T1") pending] (skipped_log n).

(** The state of [blocked_scenario] when T1 has just failed. *)
Definition first_failed_state : GraphState :=
  state_of [mkTask "T1" "A" "x" [] None failed;
            mkTask "T2" "A" "x" [] (Some "T1") pending]
           [mkError "T1" "A" "x" "UNKNOWN_ERROR" "boom" 0].

(** Every agent call succeeds. *)
Definition answering_scenario (plan : list TaskData) : Collaborators :=
  scenario (<["A" := answering_agent]> ∅) (Returned (Some plan)).

(** A planner reply whose only task has the empty string as [depends_on]. *)
Definition empty_dependency_plan : list TaskData :=
  [mkTaskData "T2" "A" "x" [] (Some "")].

(** The state the planner leaves for that reply: the task is PENDING and
    there is no result. *)
Definition empty_dependency_state : GraphState :=
  state_of [mkTask "T2" "A" "x" [] (Some "") pending] [].


(** A pending task for an agent nobody registered. *)
Definition unknown_agent_state (name : string) : GraphState :=
  state_of [new_task "T1" name "x" [] None] [].

(** ** Preparing the inputs of a task ([nodes/executor.py], [agents/base.py]) *)

(** [d.get(key)] on a dict kept as a list of items in insertion order. *)
Fixpoint dict_get (key : string) (d : list (string * string)) : option string :=
  match d with
  | [] => None
  | (k, v) :: r => if String.eqb k key then Some v else dict_get key r
  end.

(** [d[key] = value]: an existing key keeps its place, a new one goes last. *)
Fixpoint dict_set (key value : string) (d : list (string * string)) : list (string * string) :=
  match d with
  | [] => [(key, value)]
  | (k, v) :: r => if String.eqb k key then (k, value) :: r
                   else (k, v) :: dict_set key value r
  end.

(** [_prepare_task_inputs(state, task)] *)
Definition _prepare_task_inputs (s : GraphState) (t : TaskDefinition) : list (string * string) :=
  let inputs := inputs t in
  match depends_on t with
  | Some d =>
      if truthy (Some d) then
        match agent_results s !! d with
        | Some dependency_result => dict_set "dependency_result" dependency_result inputs
        | None => inputs
        end
      else inputs
  | None => inputs
  end.

(** [BaseAgent.prepare_inputs(state, task)] *)
Definition prepare_inputs (s : GraphState) (t : TaskDefinition) : list (string * string) :=
  let inputs := inputs t in
  let inputs :=
    match depends_on t with
    | Some d =>
        if truthy (Some d) then
          match agent_results s !! d with
          | Some r => dict_set "dependency_result" r inputs
          | None => inputs
          end
        else inputs
    | None => inputs
    end in
  dict_set "session_id" (session_id s) inputs.

(** ** Plans that can be executed top to bottom *)

(** Every non-empty dependency of a task specification is the id of a
    specification earlier in the reply. *)
Definition ordered_plan (plan : list TaskData) : Prop :=
  forall i d x, plan !! i = Some d -> td_depends_on d = Some x -> x <> "" ->
                exists j d', j < i /\ plan !! j = Some d' /\ td_task_id d' = x.

(** The plan when its first [k] tasks are COMPLETED and the others PENDING. *)
Definition progress (plan : list TaskData) (k : nat) : list TaskDefinition :=
  List.map (fun d => with_status completed (task_of_data d)) (take k plan)
  ++ List.map task_of_data (drop k plan).

(** Every call of an agent for a task of the plan returns. *)
Definition reliable (C : Collaborators) (plan : list TaskData) : Prop :=
  forall s d, In d plan ->
    exists r, dispatch C s (with_status running (task_of_data d)) = Returned r.

(** The state after the first [k] tasks of the plan have been executed: they
    are COMPLETED and have a result, the others are PENDING, and no error
    has been logged. *)
Definition executed (plan : list TaskData) (k : nat) (s : GraphState) : Prop :=
  task_plan s = progress plan k
  /\ error_log s = []
  /\ forall j d, j < k -> plan !! j = Some d -> is_Some (agent_results s !! td_task_id d).

(** The critical-error predicate answers the same before and after a
    remediation pass. *)
Definition critical_stable (C : Collaborators) : Prop :=
  forall s, has_critical_errors C (fst (remediation_node C s)) = has_critical_errors C s.

(** Two records that differ at most in [retry_count], which has not gone
    down. *)
Definition retried_from (e e' : ErrorRecord) : Prop :=
  e' = with_retry_count (retry_count e') e /\ retry_count e <= retry_count e'.

(** The types [_classify_error] can return. *)
Definition classifier_types : list string :=
  ["NETWORK_ERROR"; "RATE_LIMIT_ERROR"; "AUTH_ERROR"; "INVALID_INPUT";
   "AGENT_ERROR"; "LLM_ERROR"; "UNKNOWN_ERROR"].

(** ** An agent's [execute_task] ([agents/stock_selection.py],
       [agents/base.py], [tools/base.py]) *)

(** A tool instance: [tool.execute] on the prepared inputs. *)
Definition Tool := list (string * string) -> Outcome Result.

(** [BaseAgent.validate_task(task)] for an agent with these tools. *)
Definition validate_task (available_tools : list string) (t : TaskDefinition) : bool :=
  Str.mem (tool t) available_tools.

(** [get_tool(name)] of [tools/base.py] on the tool registry. *)
Definition get_tool (tools : gmap string Tool) (name : string) : option Tool :=
  tools !! name.

(** The messages of the two [ValueError]s an agent raises itself. *)
Definition cannot_execute (name tl : string) : string :=
  "Agent " +:+ name +:+ " cannot execute tool " +:+ tl.

Definition tool_not_found (tl : string) : string :=
  "Tool " +:+ tl +:+ " not found".

(** [StockSelectionAgent.available_tools] *)
Definition stock_selection_tools : list string := ["个股信息查询"; "条件选股"].

(** [StockSelectionAgent(name).execute_task(state, task)]; the [except]
    clause logs and re-raises, so the outcome of the tool is the outcome of
    the agent. *)
Definition stock_selection_execute_task (tools : gmap string Tool) (name : string) : Agent :=
  fun s t =>
    if negb (validate_task stock_selection_tools t) then
      Raised (cannot_execute name (tool t))
    else
      let inputs := prepare_inputs s t in
      match get_tool tools (tool t) with
      | None => Raised (tool_not_found (tool t))
      | Some tl => tl inputs
      end.

(** An agent that fails with a network error as long as the log has fewer
    than [n] RETRY_ATTEMPT markers for T1, and returns afterwards. *)
Definition recovering_agent (n : nat) : Agent :=
  fun s _ => if Nat.ltb (count_retry_markers "T1" (error_log s)) n
             then Raised "Connection timeout" else Returned "ok".

Definition recovering_scenario (n : nat) : Collaborators :=
  scenario (<["A" := recovering_agent n]> ∅)
           (Returned (Some [mkTaskData "T1" "A" "x" [] None])).

(** * Properties *)

(** ** Strings *)

Lemma append_empty_r s : s +:+ "" = s.
Proof.
  induction s as [|c s IH]; [reflexivity|].
  change (String c s +:+ "") with (String c (s +:+ "")). now rewrite IH.
Qed.

(** The defining equation of [lower] on a non-empty string. *)
Lemma lower_cons c r :
  Str.lower (String c r)
  = if Ascii.eqb c "226" then
      match r with
      | String c1 (String c2 r') =>
          if Ascii.eqb c1 "132" && Ascii.eqb c2 "170"
          then String "k" (Str.lower r')
          else String c (Str.lower r)
      | _ => String c (Str.lower r)
      end
    else if Ascii.eqb c "196" then
      match r with
      | String c1 r' =>
          if Ascii.eqb c1 "176"
          then String "i" (String "204" (String "135" (Str.lower r')))
          else String c (Str.lower r)
      | EmptyString => String c EmptyString
      end
    else String (Str.lower_ascii c) (Str.lower r).
Proof. reflexivity. Qed.

Lemma lower_app_upto n : forall a b,
  String.length a <= n -> Str.continues b = false ->
  Str.lower (a +:+ b) = Str.lower a +:+ Str.lower b.
Proof.
  induction n as [|n IH]; intros a b Hlen Hb.
  - destruct a; [reflexivity | simpl in Hlen; lia].
  - destruct b as [|d b']; [now rewrite !append_empty_r|].
    assert (Hd : Ascii.eqb d "132" = false /\ Ascii.eqb d "170" = false
                 /\ Ascii.eqb d "176" = false).
    { simpl in Hb. apply orb_false_elim in Hb as [Hb H3].
      now apply orb_false_elim in Hb as [H1 H2]. }
    destruct Hd as (H132 & H170 & H176).
    destruct a as [|c r]; [reflexivity|].
    simpl in Hlen. apply le_S_n in Hlen.
    change (String c r +:+ String d b') with (String c (r +:+ String d b')).
    rewrite (lower_cons c (r +:+ String d b')), (lower_cons c r).
    destruct (Ascii.eqb c "226") eqn:E1; [|destruct (Ascii.eqb c "196") eqn:E2].
    + destruct r as [|c1 [|c2 r2]].
      * change ("" +:+ String d b') with (String d b').
        destruct b' as [|d' b'']; [reflexivity|]. cbv beta iota.
        now rewrite H132.
      * change (String c1 "" +:+ String d b') with (String c1 (String d b')).
        cbv beta iota. rewrite H170, andb_false_r.
        change (String c1 (String d b')) with (String c1 "" +:+ String d b').
        rewrite IH by (simpl in *; lia || exact Hb). reflexivity.
      * change (String c1 (String c2 r2) +:+ String d b')
          with (String c1 (String c2 (r2 +:+ String d b'))).
        cbv beta iota.
        destruct (Ascii.eqb c1 "132" && Ascii.eqb c2 "170").
        -- rewrite IH by (simpl in *; lia || exact Hb). reflexivity.
        -- change (String c1 (String c2 (r2 +:+ String d b')))
             with (String c1 (String c2 r2) +:+ String d b').
           rewrite IH by (simpl in *; lia || exact Hb). reflexivity.
    + destruct r as [|c1 r1].
      * change ("" +:+ String d b') with (String d b').
        cbv beta iota. now rewrite H176.
      * change (String c1 r1 +:+ String d b') with (String c1 (r1 +:+ String d b')).
        cbv beta iota.
        destruct (Ascii.eqb c1 "176").
        -- rewrite IH by (simpl in *; lia || exact Hb). reflexivity.
        -- change (String c1 (r1 +:+ String d b')) with (String c1 r1 +:+ String d b').
           rewrite IH by (simpl in *; lia || exact Hb). reflexivity.
    + rewrite IH by (lia || exact Hb). reflexivity.
Qed.

(** [lower] goes through a concatenation whose right part does not begin
    in the middle of one of the two special sequences. *)
Lemma lower_app a b :
  Str.continues b = false -> Str.lower (a +:+ b) = Str.lower a +:+ Str.lower b.
Proof. apply (lower_app_upto (String.length a)). lia. Qed.

(** The Kelvin sign and the capital I with dot above, given by their UTF-8
    bytes, are lowercased as [str.lower()] does. *)
Lemma lower_outside_ascii :
  Str.lower (String "226" (String "132" (String "170" "ELVIN"))) = "kelvin"
  /\ Str.lower (String "196" (String "176" "San"))
     = String "i" (String "204" (String "135" "san")).
Proof. split; reflexivity. Qed.

Lemma has_char_cons_false c k kw :
  Str.has_char c (String k kw) = false -> k <> c /\ Str.has_char c kw = false.
Proof.
  simpl. intros H. apply orb_false_elim in H as [Hk Hkw]. split; [|exact Hkw].
  intros ->. now rewrite Ascii.eqb_refl in Hk.
Qed.

(** A keyword without the character [c] cannot begin before [c] and end
    after it. *)
Lemma prefix_app_sep kw : forall x c y,
  Str.has_char c kw = false ->
  String.prefix kw (x +:+ String c y) = String.prefix kw x.
Proof.
  induction kw as [|k kw IH]; intros x c y H.
  - now destruct x.
  - apply has_char_cons_false in H as [Hk Hkw].
    destruct x as [|h x]; simpl.
    + destruct (ascii_dec k c); [contradiction | reflexivity].
    + destruct (ascii_dec k h); [now apply IH | reflexivity].
Qed.

Lemma contains_app_sep kw x c y :
  Str.has_char c kw = false -> kw <> "" ->
  Str.contains kw (x +:+ String c y) = Str.contains kw x || Str.contains kw y.
Proof.
  intros H Hne. induction x as [|h x IH].
  - destruct kw as [|k kw]; [contradiction|].
    apply has_char_cons_false in H as [Hk _].
    simpl. destruct (ascii_dec k c); [contradiction | reflexivity].
  - change (String h x +:+ String c y) with (String h (x +:+ String c y)).
    cbn [Str.contains]. rewrite IH.
    change (String h (x +:+ String c y)) with (String h x +:+ String c y).
    rewrite (prefix_app_sep kw (String h x) c y H).
    now rewrite orb_assoc.
Qed.

Lemma contains_app_r kw x y :
  Str.contains kw y = true -> Str.contains kw (x +:+ y) = true.
Proof.
  intros H. induction x as [|h x IH]; [exact H|].
  change (String h x +:+ y) with (String h (x +:+ y)).
  cbn [Str.contains]. rewrite IH. apply orb_true_r.
Qed.

Lemma prefix_app_inv a : forall b s,
  String.prefix (a +:+ b) s = true ->
  exists r, s = a +:+ r /\ String.prefix b r = true.
Proof.
  induction a as [|c a IH]; intros b s H.
  - now exists s.
  - destruct s as [|d s]; [discriminate|]. simpl in H.
    destruct (ascii_dec c d) as [<-|]; [|discriminate].
    destruct (IH b s H) as (r & -> & Hr). now exists r.
Qed.

Lemma prefix_contains kw s : String.prefix kw s = true -> Str.contains kw s = true.
Proof. intros H. destruct s; simpl in *; now rewrite H. Qed.

Lemma prefix_app_refl b r : String.prefix b (b +:+ r) = true.
Proof.
  induction b as [|x b IH]; [now destruct r|].
  simpl. now destruct (ascii_dec x x).
Qed.

Lemma prefix_infix a b c s :
  String.prefix (a +:+ b +:+ c) s = true -> Str.contains b s = true.
Proof.
  intros H. apply prefix_app_inv in H as (r & Hs & Hr).
  apply prefix_app_inv in Hr as (r' & Hr' & _). subst s r.
  apply contains_app_r, prefix_contains, prefix_app_refl.
Qed.

(** A message that contains a keyword contains every piece of it. *)
Lemma contains_infix a b c s :
  Str.contains (a +:+ b +:+ c) s = true -> Str.contains b s = true.
Proof.
  induction s as [|h s IH]; intros H; cbn [Str.contains] in H;
    apply orb_true_iff in H as [H | H].
  - now apply (prefix_infix a b c).
  - discriminate.
  - now apply (prefix_infix a b c).
  - cbn [Str.contains]. rewrite (IH H). apply orb_true_r.
Qed.

Lemma lower_agent_not_found name :
  Str.lower (agent_not_found name)
  = "agent " +:+ String "'" (Str.lower name +:+ String "'" " not found").
Proof.
  unfold agent_not_found.
  change (Str.lower ("Agent '" +:+ name +:+ "' not found"))
    with ("agent " +:+ String "'" (Str.lower (name +:+ "' not found"))).
  now rewrite (lower_app name "' not found").
Qed.

(** In the executor's message the keywords of the first three rows can only
    occur inside the agent's name. *)
Lemma contains_agent_not_found kw name :
  In kw higher_priority_keywords ->
  Str.contains kw (Str.lower (agent_not_found name)) = Str.contains kw (Str.lower name).
Proof.
  intros Hin. rewrite lower_agent_not_found.
  unfold higher_priority_keywords in Hin. simpl in Hin.
  repeat (destruct Hin as [<- | Hin];
          [ rewrite !contains_app_sep by (reflexivity || discriminate);
            now rewrite orb_false_r | ]).
  contradiction.
Qed.

Lemma not_found_in_agent_not_found name :
  Str.any_in ["invalid"; "not found"; "does not exist"]
             (Str.lower (agent_not_found name)) = true.
Proof.
  unfold Str.any_in. cbn [existsb].
  rewrite lower_agent_not_found.
  rewrite (contains_app_r "not found" "agent "
             (String "'" (Str.lower name +:+ String "'" " not found"))).
  - now rewrite orb_true_r.
  - change (String "'" (Str.lower name +:+ String "'" " not found"))
      with (String "'" (Str.lower name) +:+ String "'" " not found").
    now apply contains_app_r.
Qed.

Lemma any_in_higher_priority m :
  Str.any_in higher_priority_keywords m
  = Str.any_in ["timeout"; "connection"; "network"] m
    || Str.any_in ["rate limit"; "quota"; "too many requests"] m
    || Str.any_in ["unauthorized"; "authentication"; "api key"] m.
Proof.
  change higher_priority_keywords
    with (["timeout"; "connection"; "network"]
          ++ ["rate limit"; "quota"; "too many requests"]
          ++ ["unauthorized"; "authentication"; "api key"]).
  unfold Str.any_in. now rewrite !existsb_app, orb_assoc.
Qed.

Lemma any_in_row_agent_not_found l name :
  (forall kw, In kw l -> In kw higher_priority_keywords) ->
  Str.any_in l (Str.lower (agent_not_found name)) = Str.any_in l (Str.lower name).
Proof.
  unfold Str.any_in. induction l as [|kw l IH]; intros Hl; [reflexivity|].
  cbn [existsb]. rewrite contains_agent_not_found by (apply Hl; now left).
  rewrite IH; [reflexivity|]. intros k Hk. apply Hl. now right.
Qed.

Lemma any_in_agent_not_found name :
  Str.any_in higher_priority_keywords (Str.lower (agent_not_found name))
  = Str.any_in higher_priority_keywords (Str.lower name).
Proof. apply any_in_row_agent_not_found. auto. Qed.

(** ** The classifier *)

Lemma classify_agent_not_found name :
  Str.any_in higher_priority_keywords (Str.lower name) = false ->
  _classify_error (agent_not_found name) = "INVALID_INPUT".
Proof.
  intros H. rewrite <- any_in_agent_not_found, any_in_higher_priority in H.
  apply orb_false_elim in H as [H H3]. apply orb_false_elim in H as [H1 H2].
  unfold _classify_error.
  now rewrite H1, H2, H3, not_found_in_agent_not_found.
Qed.

(** The type of the executor's message is decided by the agent's name
    alone: the first of the earlier rows that has a keyword in it, and the
    not-found row when there is none. *)
Lemma classify_agent_not_found_by_name name :
  _classify_error (agent_not_found name)
  = first_match earlier_rows "INVALID_INPUT" (Str.lower name).
Proof.
  unfold _classify_error, earlier_rows, source_taxonomy. cbn [firstn first_match].
  rewrite not_found_in_agent_not_found.
  rewrite !any_in_row_agent_not_found;
    [reflexivity | | | ]; unfold higher_priority_keywords; simpl; tauto.
Qed.

Lemma classify_agent_not_found_never_agent_error name :
  _classify_error (agent_not_found name) <> "AGENT_ERROR".
Proof.
  unfold _classify_error.
  repeat match goal with
         | |- context [if Str.any_in ["invalid"; "not found"; "does not exist"] _
                       then _ else _] =>
             rewrite not_found_in_agent_not_found
         | |- context [if ?b then _ else _] => destruct b
         end; discriminate.
Qed.

(** ** The plan as a list of shared task objects *)

(** Setting the status of a task leaves the ids of the plan as they are. *)
Lemma map_task_id_alter st i (l : list TaskDefinition) :
  List.map task_id (alter (with_status st) i l) = List.map task_id l.
Proof.
  revert i. induction l as [|t l IH]; intros [|i]; try reflexivity.
  cbn [alter list_alter List.map]. f_equal. apply IH.
Qed.

Lemma lookup_map {A B} (f : A -> B) (l : list A) : forall i,
  List.map f l !! i = f <$> l !! i.
Proof.
  induction l as [|x l IH]; intros [|i]; simpl; try reflexivity. apply IH.
Qed.

Lemma in_indexed_from {A} (l : list A) : forall k i x,
  In (i, x) (indexed_from k l) <-> k <= i /\ l !! (i - k) = Some x.
Proof.
  induction l as [|y l IH]; intros k i x; simpl.
  - split; [contradiction | intros [_ H]; discriminate].
  - rewrite IH. split.
    + intros [H | [Hle H]].
      * injection H as <- <-. split; [lia|]. now rewrite Nat.sub_diag.
      * split; [lia|]. now replace (i - k) with (S (i - S k)) by lia.
    + intros [Hle H]. destruct (i - k) as [|m] eqn:E.
      * left. injection H as ->. f_equal. lia.
      * right. split; [lia|]. now replace (i - S k) with m by lia.
Qed.

Lemma in_get_pending_tasks s i t :
  In (i, t) (get_pending_tasks s) <-> task_plan s !! i = Some t /\ status t = pending.
Proof.
  unfold get_pending_tasks. rewrite filter_In, in_indexed_from, Nat.sub_0_r. simpl.
  split.
  - intros [[_ H] Hst]. split; [exact H|]. now destruct (status t).
  - intros [H ->]. repeat split; [lia | exact H].
Qed.

Lemma get_task_by_id_lookup s tid i t :
  get_task_by_id s tid = Some (i, t) -> task_plan s !! i = Some t /\ task_id t = tid.
Proof.
  unfold get_task_by_id. intros H. apply find_some in H as [Hin Hid].
  apply in_indexed_from in Hin as [_ Hin]. rewrite Nat.sub_0_r in Hin.
  split; [exact Hin|]. now apply String.eqb_eq.
Qed.

(** What [_get_next_executable_task] returns is a PENDING task of the plan
    whose [depends_on] is falsy or a key of the results. *)
Lemma next_executable_some s i t :
  _get_next_executable_task s (get_pending_tasks s) = Some (i, t) ->
  task_plan s !! i = Some t /\ status t = pending /\
  (truthy (depends_on t) = false \/
   exists x, depends_on t = Some x /\ is_Some (agent_results s !! x)).
Proof.
  unfold _get_next_executable_task. intros H.
  apply find_some in H as [Hin Hok]. apply in_get_pending_tasks in Hin as [Hl Hst].
  repeat split; [exact Hl | exact Hst |]. simpl in Hok.
  apply orb_true_iff in Hok as [Hok | Hok].
  - left. now apply negb_true_iff.
  - right. destruct (depends_on t) as [x|]; [|discriminate].
    exists x. split; [reflexivity|]. now apply bool_decide_eq_true in Hok.
Qed.

Lemma next_executable_blocked s :
  (forall i t, task_plan s !! i = Some t -> status t = pending -> unsatisfied s t) ->
  _get_next_executable_task s (get_pending_tasks s) = None.
Proof.
  intros Hblocked.
  destruct (_get_next_executable_task s (get_pending_tasks s)) as [[i t]|] eqn:E;
    [|reflexivity].
  apply next_executable_some in E as (Hl & Hst & Hdep).
  destruct (Hblocked i t Hl Hst) as (x & Hx & Hne & Hnone).
  destruct Hdep as [Hf | (y & Hy & Hsome)].
  - rewrite Hx in Hf. simpl in Hf. apply negb_false_iff, String.eqb_eq in Hf.
    contradiction.
  - rewrite Hx in Hy. injection Hy as <-. rewrite Hnone in Hsome.
    now destruct Hsome.
Qed.







(** ** The executor *)

Lemma executor_picks C s i t :
  _get_next_executable_task s (get_pending_tasks s) = Some (i, t) ->
  agent_executor_node C s
  = let s1 := running_state s i in
    let current_task := with_status running t in
    match dispatch C s1 current_task with
    | Returned result =>
        let s2 := mark_task_completed (task_id t) result s1 in
        (s2, mkUpdate None (Some (task_plan s2)) (Some (agent_results s2)) None None)
    | Raised e =>
        let s3 := add_error (task_id t) (agent t) (tool t) (_classify_error e) e 0
                            (mark_task_failed (task_id t) s1) in
        (s3, mkUpdate None (Some (task_plan s3)) None (Some (error_log s3)) None)
    end.
Proof.
  intros H. unfold agent_executor_node.
  destruct (get_pending_tasks s) as [|p l] eqn:E; [discriminate|].
  now rewrite H.
Qed.

Lemma executor_skips C s :
  _get_next_executable_task s (get_pending_tasks s) = None ->
  agent_executor_node C s = (s, empty_update).
Proof.
  intros H. unfold agent_executor_node.
  destruct (get_pending_tasks s); [reflexivity | now rewrite H].
Qed.

Lemma error_log_mark_task_failed tid s :
  error_log (mark_task_failed tid s) = error_log s.
Proof. unfold mark_task_failed. now destruct (get_task_by_id s tid) as [[i t]|]. Qed.

Lemma apply_empty_update s : apply_update empty_update s = s.
Proof. now destruct s. Qed.

(** Merging the dict the executor returns into the state it was given
    yields the state it has mutated. *)
Lemma executor_update_echo C s :
  apply_update (snd (agent_executor_node C s)) s = fst (agent_executor_node C s).
Proof.
  destruct (_get_next_executable_task s (get_pending_tasks s)) as [[i t]|] eqn:Hnext.
  - rewrite (executor_picks C s i t Hnext). cbv zeta.
    destruct (dispatch C (running_state s i) (with_status running t)) as [r|e].
    + unfold mark_task_completed.
      now destruct (get_task_by_id (running_state s i) (task_id t)) as [[k u]|].
    + unfold mark_task_failed.
      now destruct (get_task_by_id (running_state s i) (task_id t)) as [[k u]|].
  - rewrite (executor_skips C s Hnext). apply apply_empty_update.
Qed.

(** The same for the remediation node. *)
Lemma remediation_update_echo C s :
  apply_update (snd (remediation_node C s)) s = fst (remediation_node C s).
Proof.
  unfold remediation_node.
  destruct (last (error_log s)) as [e|]; [|apply apply_empty_update].
  destruct (_determine_remediation_action C s e);
    unfold _handle_retry, _handle_replan, _handle_continue, _handle_complete;
    try reflexivity;
    now destruct (get_task_by_id s (err_task_id e)) as [[k u]|]; destruct s.
Qed.



Lemma run_add C a : forall b c, run C (a + b) c = run C b (run C a c).
Proof. induction a as [|a IH]; intros b c; simpl; [reflexivity | apply IH]. Qed.

Lemma run_succ C n c : run C (S n) c = step C (run C n c).
Proof. replace (S n) with (n + 1) by lia. now rewrite run_add. Qed.

(** No node removes a key from the results. *)
Lemma results_grow C n s s' x :
  In s' (states_of_step C (n, s)) ->
  is_Some (agent_results s !! x) -> is_Some (agent_results s' !! x).
Proof.
  intros Hin Hx. destruct n.
  - destruct Hin as [<- | []]. simpl. unfold router_node.
    now destruct (classifier_llm C (original_query s)).
  - destruct Hin as [<- | []]. simpl. unfold planner_node.
    now destruct (planner_llm C (original_query s)) as [[tasks|]|e].
  - unfold states_of_step in Hin.
    destruct (_get_next_executable_task s (get_pending_tasks s)) as [[i t]|] eqn:Hnext.
    + assert (Hstates : In s' [running_state s i; fst (agent_executor_node C s)]).
      { destruct (get_pending_tasks s); [discriminate | exact Hin]. }
      destruct Hstates as [<- | [<- | []]]; [exact Hx|].
      rewrite (executor_picks C s i t Hnext). cbv zeta.
      destruct (dispatch C (running_state s i) (with_status running t)).
      * unfold mark_task_completed. cbn [fst agent_results with_agent_results].
        destruct (decide (task_id t = x)) as [->|Hne].
        -- rewrite lookup_insert_eq. now eexists.
        -- rewrite lookup_insert_ne by exact Hne.
           now destruct (get_task_by_id (running_state s i) (task_id t)) as [[k u]|].
      * cbn [fst add_error with_error_log agent_results]. unfold mark_task_failed.
        now destruct (get_task_by_id (running_state s i) (task_id t)) as [[k u]|].
    + assert (Hs : s' = fst (agent_executor_node C s)).
      { destruct (get_pending_tasks s); now destruct Hin as [<- | []]. }
      rewrite (executor_skips C s Hnext) in Hs. now subst s'.
  - destruct Hin as [<- | []]. simpl. unfold remediation_node.
    destruct (last (error_log s)) as [e|]; [|exact Hx].
    destruct (_determine_remediation_action C s e);
      unfold _handle_retry, _handle_replan, _handle_continue, _handle_complete;
      cbn [fst]; try exact Hx;
      now destruct (get_task_by_id s (err_task_id e)) as [[k u]|].
  - destruct Hin as [<- | []]. simpl. unfold answer_generator_node.
    now destruct (answer_llm C s).
  - destruct Hin as [<- | []]. exact Hx.
  - destruct Hin as [<- | []]. exact Hx.
Qed.


Lemma step_in_states_of_step C c : In (snd (step C c)) (states_of_step C c).
Proof. unfold states_of_step. apply in_or_app. right. now left. Qed.





(** C9 (amended).  Once no task is PENDING, or every PENDING task names a
    non-empty dependency that has no result, the executor returns the empty
    update and the state it was given, and so does every further
    invocation. *)
Theorem executor_noop_when_exhausted_or_blocked (C : Collaborators) (s : GraphState) :
  (forall i t, task_plan s !! i = Some t -> status t <> pending)
  \/ (forall i t, task_plan s !! i = Some t -> status t = pending -> unsatisfied s t) ->
  agent_executor_node C s = (s, empty_update)
  /\ apply_update (snd (agent_executor_node C s)) s = s
  /\ forall n, executor_iter C n s = s.
Proof.
  intros H.
  assert (Hblocked : forall i t, task_plan s !! i = Some t -> status t = pending ->
                                 unsatisfied s t).
  { destruct H as [H | H]; [|exact H]. intros i t Hl Hst. now destruct (H i t Hl). }
  assert (Hnoop : agent_executor_node C s = (s, empty_update)).
  { apply executor_skips. now apply next_executable_blocked. }
  split; [exact Hnoop|]. split.
  - rewrite Hnoop. apply apply_empty_update.
  - induction n as [|n IH]; [reflexivity|].
    unfold executor_iter in *. simpl. rewrite IH. now rewrite Hnoop.
Qed.

Lemma executor_noop_when_exhausted_or_blocked_witness :
  agent_executor_node blocked_scenario (skipped_state 0) = (skipped_state 0, empty_update)
  /\ apply_update (snd (agent_executor_node blocked_scenario (skipped_state 0)))
                  (skipped_state 0) = skipped_state 0
  /\ forall n, executor_iter blocked_scenario n (skipped_state 0) = skipped_state 0.
Proof.
  apply (executor_noop_when_exhausted_or_blocked blocked_scenario (skipped_state 0)).
  right. intros i t Hl Hst.
  destruct i as [|[|i]]; simpl in Hl; try discriminate; injection Hl as <-.
  - discriminate Hst.
  - exists "T1". split; [reflexivity | split; [discriminate | reflexivity]].
Defined.

(** C9, as stated, fails when the dependency without a result is the empty
    string: the only PENDING task names a dependency that is no key of the
    results, and the executor runs it. *)
Lemma empty_dependency_is_not_blocked :
  let s := empty_dependency_state in
  (forall i t, task_plan s !! i = Some t -> status t = pending ->
               exists x, depends_on t = Some x /\ agent_results s !! x = None)
  /\ snd (agent_executor_node (answering_scenario empty_dependency_plan) s)
     <> empty_update
  /\ task_plan (fst (agent_executor_node (answering_scenario empty_dependency_plan) s))
     = [mkTask "T2" "A" "x" [] (Some "") completed].
Proof.
  cbv zeta. split; [|split].
  - intros i t Hl _.
    destruct i as [|i]; simpl in Hl; [|discriminate]. injection Hl as <-.
    now exists "".
  - discriminate.
  - reflexivity.
Qed.

(** C10 (amended).  When the registry has no agent of the chosen task's
    name, the executor appends one fresh ErrorRecord whose message is
    [Agent '<name>' not found].  Its type is never AGENT_ERROR; it is the
    type of the first of the three rows tested earlier (network, rate limit,
    authentication) one of whose keywords occurs in the lowercased name, and
    INVALID_INPUT when the lowercased name contains none of them. *)
Theorem unknown_agent_error_record (C : Collaborators) (s : GraphState)
    (i : nat) (t : TaskDefinition) :
  _get_next_executable_task s (get_pending_tasks s) = Some (i, t) ->
  get_agent C (agent t) = None ->
  exists ety,
    error_log (fst (agent_executor_node C s))
    = error_log s ++ [mkError (task_id t) (agent t) (tool t) ety
                              (agent_not_found (agent t)) 0]
    /\ ety <> "AGENT_ERROR"
    /\ ety = first_match earlier_rows "INVALID_INPUT" (Str.lower (agent t))
    /\ (Str.any_in higher_priority_keywords (Str.lower (agent t)) = false ->
        ety = "INVALID_INPUT").
Proof.
  intros Hnext Hnone.
  exists (_classify_error (agent_not_found (agent t))).
  split; [|split; [|split]].
  - rewrite (executor_picks C s i t Hnext). cbv zeta.
    unfold dispatch. cbn [agent with_status]. rewrite Hnone.
    cbn [fst add_error with_error_log error_log].
    now rewrite error_log_mark_task_failed.
  - apply classify_agent_not_found_never_agent_error.
  - apply classify_agent_not_found_by_name.
  - apply classify_agent_not_found.
Qed.

Lemma unknown_agent_error_record_witness :
  exists ety,
    error_log (fst (agent_executor_node empty_registry_scenario
                                        (unknown_agent_state "ghost")))
    = [mkError "T1" "ghost" "x" ety "Agent 'ghost' not found" 0]
    /\ ety <> "AGENT_ERROR"
    /\ ety = first_match earlier_rows "INVALID_INPUT" (Str.lower "ghost")
    /\ (Str.any_in higher_priority_keywords (Str.lower "ghost") = false ->
        ety = "INVALID_INPUT").
Proof.
  apply (unknown_agent_error_record empty_registry_scenario
           (unknown_agent_state "ghost") 0 (new_task "T1" "ghost" "x" [] None)).
  - reflexivity.
  - reflexivity.
Defined.

(** C10, as stated, fails for an unregistered agent whose name contains a
    keyword of an earlier row: the record is a NETWORK_ERROR. *)
Lemma unknown_agent_named_network :
  get_agent empty_registry_scenario "network_agent" = None
  /\ error_log (fst (agent_executor_node empty_registry_scenario
                                         (unknown_agent_state "network_agent")))
     = [mkError "T1" "network_agent" "x" "NETWORK_ERROR"
                "Agent 'network_agent' not found" 0].
Proof. split; reflexivity. Qed.

(** C8 (amended).  The classifier lowercases the message and assigns the
    type of the first row of [source_taxonomy] one of whose keywords occurs
    in it, UNKNOWN_ERROR when no row matches.  The rows are those of the
    claim, except that the rate-limit row also has "too many requests" and
    the authentication row has "authentication" where the claim has "auth":
    on every message whose lowercase form contains neither "too many
    requests" nor "auth", the classifier agrees with the rows as the claim
    words them. *)
Theorem classify_error_priority_order (message : string) :
  _classify_error message
  = first_match source_taxonomy "UNKNOWN_ERROR" (Str.lower message)
  /\ (Str.contains "too many requests" (Str.lower message) = false ->
      Str.contains "auth" (Str.lower message) = false ->
      _classify_error message = classify_as_specified message).
Proof.
  split.
  - unfold _classify_error, source_taxonomy. cbn [first_match].
    repeat match goal with |- context [if ?b then _ else _] => destruct b end;
      reflexivity.
  - intros Hmany Hauth.
    assert (Hauthn : Str.contains "authentication" (Str.lower message) = false).
    { destruct (Str.contains "authentication" (Str.lower message)) eqn:E;
        [|reflexivity].
      rewrite <- Hauth. symmetry.
      now apply (contains_infix "" "auth" "entication"). }
    assert (Hunauth : Str.contains "unauthorized" (Str.lower message) = false).
    { destruct (Str.contains "unauthorized" (Str.lower message)) eqn:E;
        [|reflexivity].
      rewrite <- Hauth. symmetry.
      now apply (contains_infix "un" "auth" "orized"). }
    unfold _classify_error, classify_as_specified, specified_taxonomy.
    cbn [first_match]. unfold Str.any_in. cbn [existsb].
    rewrite Hmany, Hauth, Hauthn, Hunauth.
    replace (Str.contains "hallucination" (Str.lower message)
             || (Str.contains "format" (Str.lower message)
                 || (Str.contains "parsing" (Str.lower message) || false)))
      with (Str.contains "parsing" (Str.lower message)
            || (Str.contains "format" (Str.lower message)
                || (Str.contains "hallucination" (Str.lower message) || false)))
      by (destruct (Str.contains "parsing" (Str.lower message)),
                   (Str.contains "format" (Str.lower message)),
                   (Str.contains "hallucination" (Str.lower message)); reflexivity).
    reflexivity.
Qed.

Lemma classify_error_priority_order_witness :
  Str.contains "too many requests" (Str.lower "Invalid API key format") = false
  /\ Str.contains "auth" (Str.lower "Invalid API key format") = false
  /\ _classify_error "Invalid API key format"
     = first_match source_taxonomy "UNKNOWN_ERROR" (Str.lower "Invalid API key format")
  /\ _classify_error "Invalid API key format"
     = classify_as_specified "Invalid API key format".
Proof.
  destruct (classify_error_priority_order "Invalid API key format") as [Hsrc Hspec].
  split; [reflexivity|]. split; [reflexivity|]. split; [exact Hsrc|].
  apply Hspec; reflexivity.
Defined.

(** C8, as stated, fails on the keywords: "too many requests" is a
    RATE_LIMIT_ERROR although it has neither "rate limit" nor "quota", and
    "auth failed" is not an AUTH_ERROR although it has "auth". *)
Lemma classifier_differs_from_specified_keywords :
  _classify_error "Too many requests" = "RATE_LIMIT_ERROR"
  /\ classify_as_specified "Too many requests" = "UNKNOWN_ERROR"
  /\ _classify_error "auth failed" = "UNKNOWN_ERROR"
  /\ classify_as_specified "auth failed" = "AUTH_ERROR".
Proof. repeat split; reflexivity. Qed.

(** ** The remediation policy *)

(** The part of the retry rule that holds: a NETWORK_ERROR with fewer than
    three retries is retried. *)
Lemma network_error_is_retried C s e :
  has_critical_errors C s = false ->
  error_type e = "NETWORK_ERROR" -> retry_count e < 3 ->
  _determine_remediation_action C s e = retry.
Proof.
  intros Hc Hty Hrc. unfold _determine_remediation_action.
  rewrite Hc, Hty. cbn [Str.mem existsb].
  apply Nat.ltb_lt in Hrc. now rewrite Hrc.
Qed.

(** No record of type RATE_LIMIT_ERROR is ever retried. *)
Lemma rate_limit_error_never_retried C s e :
  error_type e = "RATE_LIMIT_ERROR" ->
  _determine_remediation_action C s e <> retry.
Proof.
  intros Hty. unfold _determine_remediation_action. rewrite Hty.
  destruct (has_critical_errors C s); [discriminate|].
  cbn. now destruct (get_pending_tasks s).
Qed.

(** No record of type INVALID_INPUT ever triggers a replan. *)
Lemma invalid_input_never_replanned C s e :
  error_type e = "INVALID_INPUT" ->
  _determine_remediation_action C s e <> replan.
Proof.
  intros Hty. unfold _determine_remediation_action. rewrite Hty.
  destruct (has_critical_errors C s); [discriminate|].
  cbn. now destruct (get_pending_tasks s).
Qed.

(** C3 (the code at the failing input).  A fresh RATE_LIMIT_ERROR, as the
    classifier produces it for "Rate limit exceeded", with retry_count 0 and
    no critical error, is not retried: the decision is COMPLETE, although
    the executor's own [_should_retry_task] calls the task retryable. *)
Theorem rate_limit_error_is_not_retried :
  let e := mkError "T1" "A" "x" "RATE_LIMIT_ERROR" "Rate limit exceeded" 0 in
  let s := state_of [mkTask "T1" "A" "x" [] None failed] [e] in
  _classify_error "Rate limit exceeded" = "RATE_LIMIT_ERROR"
  /\ last (error_log s) = Some e
  /\ has_critical_errors flaky_scenario s = false
  /\ retry_count e < 3
  /\ _determine_remediation_action flaky_scenario s e = complete
  /\ _should_retry_task s "T1" = true.
Proof. cbv zeta. repeat split; try reflexivity. simpl. lia. Qed.

(** C4 (the code at the failing input).  A fresh INVALID_INPUT, as the
    classifier produces it for "Invalid stock code", in a plan of two tasks
    and with no critical error, does not replan: the decision is CONTINUE. *)
Theorem invalid_input_is_not_replanned :
  let e := mkError "T1" "A" "x" "INVALID_INPUT" "Invalid stock code" 0 in
  let s := state_of [mkTask "T1" "A" "x" [] None failed;
                     mkTask "T2" "A" "x" [] None pending] [e] in
  _classify_error "Invalid stock code" = "INVALID_INPUT"
  /\ last (error_log s) = Some e
  /\ has_critical_errors flaky_scenario s = false
  /\ 1 < length (task_plan s)
  /\ _determine_remediation_action flaky_scenario s e = continue.
Proof. cbv zeta. repeat split; try reflexivity. simpl. lia. Qed.

(** Were the policy to decide REPLAN, the remediation node would clear the
    task list, and the edge taken after it would lead to the answer
    generator, not to the planner: the routing function looks at the
    REPLAN_TRIGGERED marker the node has just appended and at the emptied
    plan.  (No run started by [invoke] gets there, as is shown further
    down.) *)
Lemma replan_action_routes_to_answer_generator (C : Collaborators) (s : GraphState)
    (e : ErrorRecord) :
  last (error_log s) = Some e ->
  _determine_remediation_action C s e = replan ->
  let s' := fst (remediation_node C s) in
  task_plan s' = []
  /\ _route_after_remediation C s' = complete
  /\ step C (remediation, s) = (answer_generator, s').
Proof.
  intros Hlast Hact s'.
  assert (Hs' : task_plan s' = [] /\ exists l m, error_log s' = l ++ [m]
                /\ error_type m = "REPLAN_TRIGGERED").
  { subst s'. unfold remediation_node. rewrite Hlast, Hact.
    unfold _handle_replan. cbn [fst]. split; [reflexivity|].
    eexists _, _. split; [reflexivity | reflexivity]. }
  destruct Hs' as (Hplan & l & m & Hlog & Hty).
  assert (Hroute : _route_after_remediation C s' = complete).
  { unfold _route_after_remediation, get_pending_tasks.
    rewrite Hlog, last_snoc, Hty, Hplan.
    now destruct (has_critical_errors C s'). }
  repeat split; [exact Hplan | exact Hroute |].
  unfold step. fold s'. now rewrite Hroute.
Qed.

(** ** The planner *)

(** The planner installs whatever list the LLM returns. *)
Lemma planner_installs_reply C s tasks :
  planner_llm C (original_query s) = Returned (Some tasks) ->
  fst (planner_node C s) = with_task_plan (List.map task_of_data tasks) s.
Proof. intros H. unfold planner_node. now rewrite H. Qed.

(** When the LLM raises or returns no function call, the plan is the single
    fallback task and a PLANNING_ERROR is logged. *)
Lemma planner_fallback_on_failure C s :
  (forall tasks, planner_llm C (original_query s) <> Returned (Some tasks)) ->
  task_plan (fst (planner_node C s)) = _create_fallback_plan (original_query s)
  /\ exists m, error_log (fst (planner_node C s))
               = error_log s ++ [mkError "planning" "planner" "llm_planning"
                                         "PLANNING_ERROR" m 0].
Proof.
  intros H. unfold planner_node.
  destruct (planner_llm C (original_query s)) as [[tasks|]|m].
  - now destruct (H tasks).
  - split; [reflexivity | now eexists].
  - split; [reflexivity | now eexists].
Qed.

(** C5 (the code at the failing input).  A reply with a repeated task id and
    a task that depends on itself is rejected by [_validate_task_plan], yet
    [planner_node] installs it as the plan: no fallback task, no error. *)
Theorem planner_accepts_invalid_plan :
  let s := initial_state "q" "s" in
  let plan := List.map task_of_data duplicate_plan in
  let s' := fst (planner_node duplicate_scenario s) in
  _validate_task_plan plan = false
  /\ task_plan s' = plan
  /\ task_plan s' <> _create_fallback_plan "q"
  /\ error_log s' = [].
Proof. cbv zeta. repeat split; try reflexivity. discriminate. Qed.

(** ** Runs of the state machine *)

Lemma alter_last {A} (f : A -> A) (l : list A) (x : A) :
  alter f (length (l ++ [x]) - 1) (l ++ [x]) = l ++ [f x].
Proof.
  rewrite length_app. simpl.
  replace (length l + 1 - 1) with (length l + 0) by lia.
  now rewrite alter_app_r.
Qed.

Lemma concat_repeat_succ {A} (x : list A) n :
  List.concat (List.repeat x (S n)) = List.concat (List.repeat x n) ++ x.
Proof.
  change (List.repeat x (S n)) with (x :: List.repeat x n).
  rewrite repeat_cons, concat_app. simpl. now rewrite app_nil_r.
Qed.

(** *** A provider that always fails with a network error *)

Lemma retried_log_succ n :
  retried_log (S n)
  = retried_log n
    ++ [mkError "T1" "A" "x" "NETWORK_ERROR" "Connection timeout" 1;
        mkError "T1" "A" "x" "RETRY_ATTEMPT" "Retrying task due to NETWORK_ERROR" 1].
Proof. unfold retried_log. apply concat_repeat_succ. Qed.

Lemma retried_log_no_critical_type n :
  existsb (fun e => Str.mem (error_type e) ["UNRECOVERABLE_ERROR"; "AUTH_FAILURE"])
          (retried_log n) = false.
Proof.
  induction n as [|n IH]; [reflexivity|].
  now rewrite retried_log_succ, existsb_app, IH.
Qed.

(** The two placeholder categories never occur on this run. *)
Lemma flaky_states_not_critical n :
  placeholder_critical (failed_state n) = false
  /\ placeholder_critical (retried_state n) = false.
Proof.
  unfold placeholder_critical, failed_state, retried_state.
  cbn [error_log state_of].
  now rewrite existsb_app, retried_log_no_critical_type.
Qed.

Section FlakyRun.

Variable critical : GraphState -> bool.

Lemma flaky_executor_fails n :
  fst (agent_executor_node (flaky_with critical) (retried_state n)) = failed_state n.
Proof.
  rewrite (executor_picks (flaky_with critical) (retried_state n) 0
             (mkTask "T1" "A" "x" [] None pending)) by reflexivity.
  reflexivity.
Qed.

Lemma flaky_remediation_retries n :
  critical (failed_state n) = false ->
  fst (remediation_node (flaky_with critical) (failed_state n)) = retried_state (S n).
Proof.
  intros Hcrit. unfold remediation_node.
  unfold failed_state at 1. cbn [error_log state_of]. rewrite last_snoc.
  unfold _determine_remediation_action.
  cbn [has_critical_errors flaky_with scenario_with]. rewrite Hcrit.
  cbn [error_type Str.mem existsb].
  change (String.eqb "NETWORK_ERROR" "API_TIMEOUT" || (String.eqb "NETWORK_ERROR" "NETWORK_ERROR" || false))
    with true.
  cbn [retry_count Nat.ltb Nat.leb andb].
  unfold _handle_retry, retried_state. rewrite retried_log_succ.
  cbn [fst]. unfold add_error, set_latest_retry_count.
  cbn [err_task_id].
  change (get_task_by_id _ "T1")
    with (Some (0, mkTask "T1" "A" "x" [] None failed)).
  unfold failed_state.
  cbn [error_log set_task_status with_task_plan with_error_log state_of].
  rewrite alter_last. rewrite <- app_assoc. reflexivity.
Qed.

Lemma flaky_route_after_retry n :
  critical (retried_state (S n)) = false ->
  _route_after_remediation (flaky_with critical) (retried_state (S n)) = continue.
Proof.
  intros Hcrit. unfold _route_after_remediation.
  cbn [has_critical_errors flaky_with scenario_with]. rewrite Hcrit.
  unfold retried_state at 1. cbn [error_log state_of].
  rewrite retried_log_succ, last_app_cons. reflexivity.
Qed.

Lemma flaky_round n :
  critical (failed_state n) = false ->
  critical (retried_state (S n)) = false ->
  run (flaky_with critical) 2 (agent_executor, retried_state n)
  = (agent_executor, retried_state (S n)).
Proof.
  intros Hfailed Hretried.
  cbn [run]. unfold step at 2. rewrite flaky_executor_fails.
  assert (Hroute : _route_after_execution (failed_state n) = exec_error).
  { unfold _route_after_execution, failed_state. cbn [error_log state_of].
    now rewrite last_snoc. }
  rewrite Hroute. cbn [edge_after_execution]. unfold step.
  rewrite flaky_remediation_retries by exact Hfailed.
  now rewrite flaky_route_after_retry by exact Hretried.
Qed.

End FlakyRun.

Lemma count_retry_markers_retried_log n :
  count_retry_markers "T1" (retried_log n) = n.
Proof.
  unfold count_retry_markers. induction n as [|n IH]; [reflexivity|].
  rewrite retried_log_succ, List.filter_app, length_app, IH. simpl. lia.
Qed.

(** C2 (the code on the failing run).  With a provider that fails with a
    network error on every call, and a critical-error predicate that does
    not fire on the states of the run, the workflow goes round executor and
    remediation: after [2 + 2 * n] steps it is back at the executor with the
    task PENDING and [n] RETRY_ATTEMPT markers in the log, for every [n].
    Each failure appends a fresh record whose retry_count is 0, so the test
    [retry_count < 3] never fails. *)
Theorem retry_markers_are_unbounded (critical : GraphState -> bool) (n : nat) :
  (forall k, k < n -> critical (failed_state k) = false
                      /\ critical (retried_state (S k)) = false) ->
  let c := run (flaky_with critical) (2 + 2 * n) (invoke_start "q" "s") in
  fst c = agent_executor
  /\ task_plan (snd c) = [mkTask "T1" "A" "x" [] None pending]
  /\ count_retry_markers "T1" (error_log (snd c)) = n.
Proof.
  intros Hcrit.
  assert (H : run (flaky_with critical) (2 + 2 * n) (invoke_start "q" "s")
              = (agent_executor, retried_state n)).
  { induction n as [|n IH]; [reflexivity|].
    replace (2 + 2 * S n) with ((2 + 2 * n) + 2) by lia.
    rewrite run_add, IH by (intros k Hk; apply Hcrit; lia).
    destruct (Hcrit n) as [Hf Hr]; [lia|]. now apply flaky_round. }
  cbv zeta. rewrite H. cbn [fst snd]. repeat split.
  apply count_retry_markers_retried_log.
Qed.

Lemma retry_markers_are_unbounded_witness :
  let c := run flaky_scenario 10 (invoke_start "q" "s") in
  fst c = agent_executor
  /\ task_plan (snd c) = [mkTask "T1" "A" "x" [] None pending]
  /\ count_retry_markers "T1" (error_log (snd c)) = 4.
Proof.
  apply (retry_markers_are_unbounded placeholder_critical 4).
  intros k Hk. do 4 (destruct k as [|k]; [split; reflexivity|]). lia.
Defined.

(** *** A dependent task blocked by a failed predecessor *)

Lemma skipped_log_succ n :
  skipped_log (S n)
  = skipped_log n
    ++ [mkError "T1" "remediation" "continue" "TASK_SKIPPED"
                "Skipping task T1 due to unrecoverable TASK_SKIPPED" 0].
Proof.
  unfold skipped_log.
  change (List.repeat ?x (S n)) with (x :: List.repeat x n).
  now rewrite repeat_cons.
Qed.

Lemma last_skipped_log n :
  exists msg, last (skipped_log n)
              = Some (mkError "T1" "remediation" "continue" "TASK_SKIPPED" msg 0).
Proof.
  destruct n as [|n]; [now eexists|].
  rewrite skipped_log_succ, last_snoc. now eexists.
Qed.

(** The two placeholder categories never occur on this run. *)
Lemma skipped_state_not_critical n :
  placeholder_critical (skipped_state n) = false.
Proof.
  unfold placeholder_critical, skipped_state. cbn [error_log state_of].
  induction n as [|n IH]; [reflexivity|].
  now rewrite skipped_log_succ, existsb_app, IH.
Qed.

Section BlockedRun.

Variable critical : GraphState -> bool.
Hypothesis first_not_critical : critical first_failed_state = false.
Hypothesis skipped_not_critical : forall n, critical (skipped_state n) = false.

Lemma blocked_start :
  run (blocked_with critical) 4 (invoke_start "q" "s")
  = (agent_executor, skipped_state 0).
Proof.
  change (run (blocked_with critical) 4 (invoke_start "q" "s"))
    with (step (blocked_with critical) (remediation, first_failed_state)).
  unfold step.
  assert (Hnode : fst (remediation_node (blocked_with critical) first_failed_state)
                  = skipped_state 0).
  { unfold remediation_node, _determine_remediation_action.
    cbn [has_critical_errors blocked_with scenario_with].
    rewrite first_not_critical. reflexivity. }
  rewrite Hnode. unfold _route_after_remediation.
  cbn [has_critical_errors blocked_with scenario_with].
  now rewrite skipped_not_critical.
Qed.

Lemma blocked_executor_step n :
  step (blocked_with critical) (agent_executor, skipped_state n)
  = (remediation, skipped_state n).
Proof.
  unfold step.
  rewrite (executor_skips (blocked_with critical) (skipped_state n)) by reflexivity.
  cbn [fst]. unfold _route_after_execution.
  destruct (last_skipped_log n) as [msg Hlast].
  unfold skipped_state at 1. cbn [error_log state_of]. now rewrite Hlast.
Qed.

Lemma blocked_decision_continue n e :
  error_type e = "TASK_SKIPPED" ->
  _determine_remediation_action (blocked_with critical) (skipped_state n) e = continue.
Proof.
  intros Hty. unfold _determine_remediation_action.
  cbn [has_critical_errors blocked_with scenario_with].
  now rewrite skipped_not_critical, Hty.
Qed.

Lemma blocked_remediation_node n :
  fst (remediation_node (blocked_with critical) (skipped_state n))
  = skipped_state (S n).
Proof.
  unfold remediation_node.
  destruct (last_skipped_log n) as [msg Hlast].
  unfold skipped_state at 1. cbn [error_log state_of]. rewrite Hlast.
  rewrite blocked_decision_continue by reflexivity.
  unfold skipped_state. now rewrite skipped_log_succ.
Qed.

Lemma blocked_remediation_step n :
  step (blocked_with critical) (remediation, skipped_state n)
  = (agent_executor, skipped_state (S n)).
Proof.
  unfold step. rewrite blocked_remediation_node.
  unfold _route_after_remediation.
  cbn [has_critical_errors blocked_with scenario_with].
  rewrite skipped_not_critical.
  destruct (last_skipped_log (S n)) as [msg Hlast].
  unfold skipped_state at 1. cbn [error_log state_of]. now rewrite Hlast.
Qed.

(** The configurations of the loop. *)
Lemma blocked_run_loops fuel :
  exists n, run (blocked_with critical) (4 + fuel) (invoke_start "q" "s")
            = (agent_executor, skipped_state n)
         \/ run (blocked_with critical) (4 + fuel) (invoke_start "q" "s")
            = (remediation, skipped_state n).
Proof.
  induction fuel as [|fuel [n [IH | IH]]].
  - exists 0. left. rewrite Nat.add_0_r. apply blocked_start.
  - exists n. right.
    replace (4 + S fuel) with (S (4 + fuel)) by lia.
    now rewrite run_succ, IH, blocked_executor_step.
  - exists (S n). left.
    replace (4 + S fuel) with (S (4 + fuel)) by lia.
    now rewrite run_succ, IH, blocked_remediation_step.
Qed.

End BlockedRun.

(** C6 (the code on the failing run).  In scenario A (T2 depends on T1, T1
    fails with an error that is neither retried nor replanned), with a
    critical-error predicate that does not fire on the states of the run,
    the workflow never reaches a terminal node: whatever the number of
    steps, the node to run next is neither the answer generator, nor the
    fallback, nor END, and from the fourth step on T2 is still PENDING.
    Each remediation pass appends one more TASK_SKIPPED marker with
    retry_count 0, which sends the next executor pass to remediation
    again. *)
Theorem blocked_dependent_never_terminates (critical : GraphState -> bool)
    (fuel : nat) :
  critical first_failed_state = false ->
  (forall n, critical (skipped_state n) = false) ->
  let c := run (blocked_with critical) fuel (invoke_start "q" "s") in
  fst c <> END /\ fst c <> answer_generator /\ fst c <> fallback
  /\ (4 <= fuel ->
      task_plan (snd c) !! 1 = Some (mkTask "T2" "A" "x" [] (Some "T1") pending)).
Proof.
  intros Hfirst Hskipped. cbv zeta.
  destruct (le_lt_dec 4 fuel) as [Hge | Hlt].
  - replace fuel with (4 + (fuel - 4)) by lia.
    destruct (blocked_run_loops critical Hfirst Hskipped (fuel - 4)) as [n [-> | ->]];
      repeat split; discriminate.
  - destruct fuel as [|[|[|[|fuel]]]]; try lia;
      repeat split; try discriminate; lia.
Qed.

Lemma blocked_dependent_never_terminates_witness :
  let c := run blocked_scenario 25 (invoke_start "q" "s") in
  fst c <> END /\ fst c <> answer_generator /\ fst c <> fallback
  /\ task_plan (snd c) !! 1 = Some (mkTask "T2" "A" "x" [] (Some "T1") pending).
Proof.
  destruct (blocked_dependent_never_terminates placeholder_critical 25)
    as (Hend & Hanswer & Hfallback & Hpending).
  - reflexivity.
  - apply skipped_state_not_critical.
  - refine (conj Hend (conj Hanswer (conj Hfallback (Hpending _)))). lia.
Defined.

(** * Further properties of the engine *)

(** ** What one executor pass changes *)

Lemma frame_set_task_status i st s :
  agent_results (set_task_status i st s) = agent_results s
  /\ error_log (set_task_status i st s) = error_log s.
Proof. now split. Qed.

Lemma frame_mark_task_failed tid s :
  agent_results (mark_task_failed tid s) = agent_results s
  /\ error_log (mark_task_failed tid s) = error_log s.
Proof. unfold mark_task_failed. now destruct (get_task_by_id s tid) as [[i t]|]. Qed.

Lemma frame_mark_task_completed tid r s :
  agent_results (mark_task_completed tid r s) = <[tid := r]> (agent_results s)
  /\ error_log (mark_task_completed tid r s) = error_log s.
Proof. unfold mark_task_completed. now destruct (get_task_by_id s tid) as [[i t]|]. Qed.

(** The three ways an executor pass can end, as seen on the results and on
    the log. *)
Lemma executor_cases C s :
  fst (agent_executor_node C s) = s
  \/ (exists i t r,
        _get_next_executable_task s (get_pending_tasks s) = Some (i, t)
        /\ dispatch C (running_state s i) (with_status running t) = Returned r
        /\ agent_results (fst (agent_executor_node C s))
           = <[task_id t := r]> (agent_results s)
        /\ error_log (fst (agent_executor_node C s)) = error_log s)
  \/ (exists i t m,
        _get_next_executable_task s (get_pending_tasks s) = Some (i, t)
        /\ dispatch C (running_state s i) (with_status running t) = Raised m
        /\ agent_results (fst (agent_executor_node C s)) = agent_results s
        /\ error_log (fst (agent_executor_node C s))
           = error_log s ++ [mkError (task_id t) (agent t) (tool t)
                                     (_classify_error m) m 0]).
Proof.
  destruct (_get_next_executable_task s (get_pending_tasks s)) as [[i t]|] eqn:Hnext.
  - rewrite (executor_picks C s i t Hnext). cbv zeta.
    destruct (dispatch C (running_state s i) (with_status running t)) as [r|m] eqn:Hd.
    + right. left. exists i, t, r. cbn [fst].
      destruct (frame_mark_task_completed (task_id t) r (running_state s i)) as [Hr Hl].
      now rewrite Hr, Hl.
    + right. right. exists i, t, m. cbn [fst add_error with_error_log agent_results error_log].
      destruct (frame_mark_task_failed (task_id t) (running_state s i)) as [Hr Hl].
      now rewrite Hr, Hl.
  - left. now rewrite (executor_skips C s Hnext).
Qed.


(** ** The classifier's range and what it means for the policy *)

Lemma classify_in_range m : In (_classify_error m) classifier_types.
Proof.
  unfold _classify_error, classifier_types.
  repeat match goal with |- context [if ?b then _ else _] => destruct b end;
    simpl; tauto.
Qed.

(** X2.  Whatever the message, the classifier returns one of its seven
    types; so a record the executor appends is fresh (retry_count 0), its
    type is never API_TIMEOUT, INVALID_STOCK_CODE or AGENT_HALLUCINATION, the
    policy never answers it with a replan, and it answers with a retry
    exactly when no critical error holds and the type is NETWORK_ERROR or
    LLM_ERROR. *)
Theorem executor_failure_is_never_replanned (C : Collaborators) (s : GraphState)
    (i : nat) (t : TaskDefinition) (m : string) :
  _get_next_executable_task s (get_pending_tasks s) = Some (i, t) ->
  dispatch C (running_state s i) (with_status running t) = Raised m ->
  let s' := fst (agent_executor_node C s) in
  exists e,
    last (error_log s') = Some e
    /\ retry_count e = 0
    /\ In (error_type e) classifier_types
    /\ _determine_remediation_action C s' e <> replan
    /\ (_determine_remediation_action C s' e = retry
        <-> has_critical_errors C s' = false
            /\ (error_type e = "NETWORK_ERROR" \/ error_type e = "LLM_ERROR")).
Proof.
  intros Hnext Hd s'.
  exists (mkError (task_id t) (agent t) (tool t) (_classify_error m) m 0).
  assert (Hlog : last (error_log s')
                 = Some (mkError (task_id t) (agent t) (tool t) (_classify_error m) m 0)).
  { subst s'. rewrite (executor_picks C s i t Hnext). cbv zeta. rewrite Hd.
    cbn [fst add_error with_error_log error_log]. apply last_snoc. }
  split; [exact Hlog|]. split; [reflexivity|].
  split; [apply classify_in_range|].
  unfold _determine_remediation_action. cbn [error_type retry_count].
  pose proof (classify_in_range m) as Hin. unfold classifier_types in Hin.
  destruct (has_critical_errors C s').
  { split; [discriminate|]. split; [discriminate | intros [H _]; discriminate]. }
  simpl in Hin.
  destruct Hin as [<- | [<- | [<- | [<- | [<- | [<- | [<- | []]]]]]]]; cbn;
    (split; [try discriminate; now destruct (get_pending_tasks s') |]);
    split; try (intros _; split; [reflexivity | now (left + right)]);
    try reflexivity;
    try (intros H; exfalso; revert H; now destruct (get_pending_tasks s'));
    try (intros [_ [H | H]]; discriminate H).
Qed.

Lemma executor_failure_is_never_replanned_witness :
  let s' := fst (agent_executor_node flaky_scenario (retried_state 0)) in
  exists e,
    last (error_log s') = Some e
    /\ retry_count e = 0
    /\ In (error_type e) classifier_types
    /\ _determine_remediation_action flaky_scenario s' e <> replan
    /\ (_determine_remediation_action flaky_scenario s' e = retry
        <-> has_critical_errors flaky_scenario s' = false
            /\ (error_type e = "NETWORK_ERROR" \/ error_type e = "LLM_ERROR")).
Proof.
  apply (executor_failure_is_never_replanned flaky_scenario (retried_state 0) 0
           (mkTask "T1" "A" "x" [] None pending) "Connection timeout").
  - reflexivity.
  - reflexivity.
Defined.

(** ** Routing *)

(** X3.  The freshness test looks only at the last record of the log: when
    that record has retry_count 0, the edge after an executor pass leads to
    remediation whatever the pass did, also when it completed a task or did
    nothing. *)
Theorem stale_record_sends_executor_to_remediation (C : Collaborators)
    (s : GraphState) (e : ErrorRecord) :
  last (error_log s) = Some e -> retry_count e = 0 ->
  fst (step C (agent_executor, s)) = remediation.
Proof.
  intros Hlast Hrc. unfold step.
  assert (H : exists e', last (error_log (fst (agent_executor_node C s))) = Some e'
                         /\ retry_count e' = 0).
  { destruct (executor_cases C s) as [-> | [(i & t & r & _ & _ & _ & ->)
                                           | (i & t & m & _ & _ & _ & ->)]].
    - now exists e.
    - now exists e.
    - eexists. split; [apply last_snoc | reflexivity]. }
  destruct H as (e' & Hl & Hz).
  unfold _route_after_execution. cbn [fst]. now rewrite Hl, Hz.
Qed.

Lemma stale_record_sends_executor_to_remediation_witness :
  fst (step (answering_scenario chained_plan)
            (agent_executor,
             state_of [mkTask "T1" "A" "x" [] None pending]
                      [mkError "planning" "planner" "llm_planning" "PLANNING_ERROR"
                               "no plan" 0]))
  = remediation.
Proof.
  apply (stale_record_sends_executor_to_remediation (answering_scenario chained_plan) _
           (mkError "planning" "planner" "llm_planning" "PLANNING_ERROR" "no plan" 0)).
  - reflexivity.
  - reflexivity.
Defined.

(** The record a remediation action appends is a marker of its own. *)
Lemma remediation_cases C s :
  fst (remediation_node C s) = s
  \/ exists l m, error_log (fst (remediation_node C s)) = l ++ [m]
                 /\ In (error_type m) ["RETRY_ATTEMPT"; "REPLAN_TRIGGERED";
                                       "TASK_SKIPPED"; "FORCED_COMPLETION"].
Proof.
  unfold remediation_node.
  destruct (last (error_log s)) as [e|]; [|now left].
  destruct (_determine_remediation_action C s e).
  - unfold _handle_retry.
    destruct (get_task_by_id s (err_task_id e)) as [[i t]|]; [|now left].
    right. eexists _, _. split; [reflexivity | simpl; tauto].
  - right. eexists _, _. split; [reflexivity | simpl; tauto].
  - right. eexists _, _. split; [reflexivity | simpl; tauto].
  - right. eexists _, _. split; [reflexivity | simpl; tauto].
Qed.

(** A retry decision is never taken on an INVALID_STOCK_CODE record. *)
Lemma retry_decision_type C s e :
  _determine_remediation_action C s e = retry ->
  has_critical_errors C s = false
  /\ String.eqb (error_type e) "INVALID_STOCK_CODE" = false.
Proof.
  unfold _determine_remediation_action.
  destruct (has_critical_errors C s); [discriminate|]. intros H. split; [reflexivity|].
  destruct (String.eqb (error_type e) "INVALID_STOCK_CODE") eqn:E; [|reflexivity].
  apply String.eqb_eq in E. rewrite E in H. cbn in H.
  repeat match type of H with
         | context [if ?b then _ else _] => destruct b
         | context [match get_pending_tasks s with _ => _ end] =>
             destruct (get_pending_tasks s)
         end; discriminate.
Qed.

Lemma route_after_remediation_not_replan C s :
  _route_after_remediation C (fst (remediation_node C s)) <> replan.
Proof.
  destruct (remediation_cases C s) as [Hsame | (l & m & Hlog & Hty)].
  - rewrite Hsame. unfold remediation_node in Hsame.
    unfold _route_after_remediation.
    destruct (last (error_log s)) as [e|] eqn:Hlast; [|discriminate].
    destruct (has_critical_errors C s) eqn:Hc; [discriminate|].
    destruct (_determine_remediation_action C s e) eqn:Hact.
    + apply retry_decision_type in Hact as [_ ->].
      destruct (Str.mem (error_type e) ["API_TIMEOUT"; "NETWORK_ERROR"]
                && Nat.ltb (retry_count e) 3); [discriminate|].
      cbn. now destruct (get_pending_tasks s).
    + exfalso. revert Hsame. unfold _handle_replan. cbn [fst]. intros Hsame.
      apply (f_equal error_log) in Hsame. cbn in Hsame.
      apply (f_equal (@length _)) in Hsame. rewrite length_app in Hsame.
      simpl in Hsame.
      destruct (get_task_by_id s (err_task_id e)) as [[k u]|]; simpl in Hsame; lia.
    + exfalso. revert Hsame. unfold _handle_continue. cbn [fst]. intros Hsame.
      apply (f_equal error_log) in Hsame. cbn in Hsame.
      apply (f_equal (@length _)) in Hsame. rewrite length_app in Hsame.
      simpl in Hsame.
      destruct (get_task_by_id s (err_task_id e)) as [[k u]|]; simpl in Hsame; lia.
    + exfalso. revert Hsame. unfold _handle_complete. cbn [fst]. intros Hsame.
      apply (f_equal error_log) in Hsame. cbn in Hsame.
      apply (f_equal (@length _)) in Hsame. rewrite length_app in Hsame.
      simpl in Hsame. lia.
  - unfold _route_after_remediation. rewrite Hlog, last_snoc.
    destruct (has_critical_errors C _); [discriminate|].
    simpl in Hty.
    destruct Hty as [<- | [<- | [<- | [<- | []]]]]; cbn;
      now destruct (get_pending_tasks _).
Qed.

(** The node that follows each node. *)
Lemma successor C n s :
  match n with
  | router => In (fst (step C (n, s))) [agent_executor; planner; fallback]
  | planner => fst (step C (n, s)) = agent_executor
  | agent_executor => In (fst (step C (n, s))) [agent_executor; remediation; answer_generator]
  | remediation => In (fst (step C (n, s))) [agent_executor; answer_generator]
  | answer_generator | fallback | END => fst (step C (n, s)) = END
  end.
Proof.
  destruct n; cbn [step fst]; try reflexivity.
  - destruct (_route_after_classification _); simpl; tauto.
  - destruct (_route_after_execution _); simpl; tauto.
  - pose proof (route_after_remediation_not_replan C s) as H.
    destruct (_route_after_remediation C _); simpl; tauto.
Qed.

(** X4.  On every run the router runs once and the planner at most once:
    from the second step on the node to run is neither of them.  In
    particular remediation is never followed by the planner, whatever it
    decided. *)
Theorem planner_runs_at_most_once (C : Collaborators) (query session : string)
    (k : nat) :
  (forall s, fst (step C (remediation, s)) <> planner)
  /\ (2 <= k ->
      fst (run C k (invoke_start query session)) <> router
      /\ fst (run C k (invoke_start query session)) <> planner).
Proof.
  split.
  - intros s H. pose proof (successor C remediation s) as Hs. rewrite H in Hs.
    simpl in Hs. intuition discriminate.
  - intros Hk.
    assert (H1 : In (fst (run C 1 (invoke_start query session)))
                    [agent_executor; planner; fallback]).
    { apply (successor C router). }
    assert (Hind : forall j, In (fst (run C (2 + j) (invoke_start query session)))
                               [agent_executor; remediation; answer_generator;
                                fallback; END]).
    { induction j as [|j IH].
      - change (run C (2 + 0) (invoke_start query session))
          with (step C (run C 1 (invoke_start query session))).
        destruct (run C 1 (invoke_start query session)) as [n s]. cbn [fst] in H1.
        pose proof (successor C n s) as Hs.
        destruct n; simpl in H1, Hs |- *; try rewrite Hs; intuition (try discriminate);
          match goal with H : _ = fst _ |- _ => rewrite <- H end; tauto.
      - replace (2 + S j) with (S (2 + j)) by lia. rewrite run_succ.
        destruct (run C (2 + j) (invoke_start query session)) as [n s]. cbn [fst] in IH.
        pose proof (successor C n s) as Hs.
        destruct n; simpl in IH, Hs |- *; try rewrite Hs; intuition (try discriminate);
          match goal with H : _ = fst _ |- _ => rewrite <- H end; tauto. }
    replace k with (2 + (k - 2)) by lia.
    specialize (Hind (k - 2)).
    split; intros H; rewrite H in Hind; simpl in Hind; intuition discriminate.
Qed.

Lemma planner_runs_at_most_once_witness :
  (forall s, fst (step blocked_scenario (remediation, s)) <> planner)
  /\ fst (run blocked_scenario 7 (invoke_start "q" "s")) <> router
  /\ fst (run blocked_scenario 7 (invoke_start "q" "s")) <> planner.
Proof.
  destruct (planner_runs_at_most_once blocked_scenario "q" "s" 7) as [H1 H2].
  split; [exact H1 | apply H2; lia].
Defined.

(** ** Replanning *)









(** ** The router and the runs that execute no task *)

(** X5.  The router always leaves one of the three labels in
    [query_complexity]; the run goes to the fallback node exactly when the
    classifier's normalised reply is OOS, to the executor exactly when it is
    SIMPLE, and to the planner in every other case: any other reply, and a
    classifier that raises, count as COMPLEX. *)
Theorem router_defaults_to_complex (C : Collaborators) (s : GraphState) :
  let s' := fst (router_node C s) in
  In (query_complexity s') [Some "SIMPLE"; Some "COMPLEX"; Some "OOS"]
  /\ (fst (step C (router, s)) = fallback
      <-> classifier_llm C (original_query s) = Returned "OOS")
  /\ (fst (step C (router, s)) = agent_executor
      <-> classifier_llm C (original_query s) = Returned "SIMPLE")
  /\ (classifier_llm C (original_query s) <> Returned "OOS" ->
      classifier_llm C (original_query s) <> Returned "SIMPLE" ->
      fst (step C (router, s)) = planner /\ query_complexity s' = Some "COMPLEX").
Proof.
  cbv zeta. unfold step, router_node. cbn [fst].
  destruct (classifier_llm C (original_query s)) as [content|m].
  - unfold Str.mem. cbn [existsb].
    destruct (String.eqb_spec content "SIMPLE") as [->|Hs].
    { cbn. repeat split; try tauto; try discriminate; try congruence. }
    destruct (String.eqb_spec content "COMPLEX") as [->|Hc].
    { cbn. repeat split; try tauto; try discriminate; try congruence. }
    destruct (String.eqb_spec content "OOS") as [->|Ho].
    { cbn. repeat split; try tauto; try discriminate; try congruence. }
    cbn. repeat split; try tauto; try discriminate; try congruence.
  - cbn. repeat split; try tauto; try discriminate; try congruence.
Qed.

Lemma router_defaults_to_complex_witness :
  fst (step blocked_scenario (router, initial_state "q" "s")) = planner
  /\ query_complexity (fst (router_node blocked_scenario (initial_state "q" "s")))
     = Some "COMPLEX".
Proof.
  destruct (router_defaults_to_complex blocked_scenario (initial_state "q" "s"))
    as (_ & _ & _ & H).
  apply H; discriminate.
Defined.

(** X6.  A query the classifier labels OOS ends after two steps: the plan
    and the results are empty, no error is logged, and the answer is the
    fallback node's text; neither the planner nor any agent has run. *)
Theorem oos_query_runs_no_task (C : Collaborators) (query session : string) :
  classifier_llm C query = Returned "OOS" ->
  run C 2 (invoke_start query session)
  = (END, mkState query session (Some "OOS") [] ∅ []
                  (fallback_node_text C (mkState query session (Some "OOS") [] ∅ [] ""))).
Proof.
  intros H.
  change (run C 2 (invoke_start query session))
    with (step C (step C (router, initial_state query session))).
  assert (H1 : step C (router, initial_state query session)
               = (fallback, mkState query session (Some "OOS") [] ∅ [] "")).
  { unfold step, router_node. cbn [initial_state original_query]. now rewrite H. }
  now rewrite H1.
Qed.

Lemma oos_query_runs_no_task_witness :
  let C := mkCollab placeholder_critical ∅ (fun _ => Returned "OOS")
                    (fun _ => Returned None) (fun _ => Returned "answer")
                    (fun _ => "summary") (fun _ => "sorry") in
  run C 2 (invoke_start "weather?" "s")
  = (END, mkState "weather?" "s" (Some "OOS") [] ∅ [] "sorry").
Proof.
  intros C. apply (oos_query_runs_no_task C "weather?" "s"). reflexivity.
Defined.

(** X7.  A query the classifier labels SIMPLE goes to the executor with an
    empty plan: the executor does nothing, and after three steps the run has
    ended with no task, no result and no agent called; the only thing that
    happened is the synthesis of the answer. *)
Theorem simple_query_runs_no_task (C : Collaborators) (query session : string) :
  classifier_llm C query = Returned "SIMPLE" ->
  run C 2 (invoke_start query session)
  = (answer_generator, mkState query session (Some "SIMPLE") [] ∅ [] "")
  /\ fst (run C 3 (invoke_start query session)) = END
  /\ task_plan (snd (run C 3 (invoke_start query session))) = []
  /\ agent_results (snd (run C 3 (invoke_start query session))) = ∅.
Proof.
  intros H.
  assert (H2 : run C 2 (invoke_start query session)
               = (answer_generator, mkState query session (Some "SIMPLE") [] ∅ [] "")).
  { change (run C 2 (invoke_start query session))
      with (step C (step C (router, initial_state query session))).
    assert (H1 : step C (router, initial_state query session)
                 = (agent_executor, mkState query session (Some "SIMPLE") [] ∅ [] "")).
    { unfold step, router_node. cbn [initial_state original_query]. now rewrite H. }
    now rewrite H1. }
  split; [exact H2|].
  replace 3 with (2 + 1) by reflexivity. rewrite run_add, H2.
  cbn [run step fst snd]. unfold answer_generator_node.
  now destruct (answer_llm C _).
Qed.

Lemma simple_query_runs_no_task_witness :
  let C := mkCollab placeholder_critical (<["A" := answering_agent]> ∅)
                    (fun _ => Returned "SIMPLE")
                    (fun _ => Returned None) (fun _ => Returned "answer")
                    (fun _ => "summary") (fun _ => "sorry") in
  run C 2 (invoke_start "price?" "s")
  = (answer_generator, mkState "price?" "s" (Some "SIMPLE") [] ∅ [] "")
  /\ fst (run C 3 (invoke_start "price?" "s")) = END
  /\ task_plan (snd (run C 3 (invoke_start "price?" "s"))) = []
  /\ agent_results (snd (run C 3 (invoke_start "price?" "s"))) = ∅.
Proof.
  intros C. apply (simple_query_runs_no_task C "price?" "s"). reflexivity.
Defined.

(** ** The remediation actions *)

Lemma no_pending_tasks s :
  (forall i t, task_plan s !! i = Some t -> status t <> pending) ->
  get_pending_tasks s = [].
Proof.
  intros H. destruct (get_pending_tasks s) as [|[i t] l] eqn:E; [reflexivity|].
  assert (Hin : In (i, t) (get_pending_tasks s)) by (rewrite E; now left).
  apply in_get_pending_tasks in Hin as [Hl Hst]. now destruct (H i t Hl).
Qed.

(** X8.  When the policy decides COMPLETE, the remediation node turns every
    PENDING task into FAILED and leaves the other tasks as they are, appends
    one FORCED_COMPLETION record, and the run goes to the answer generator;
    in the state it leaves no task is PENDING, so the executor has nothing
    left to do. *)
Theorem complete_action_closes_the_plan (C : Collaborators) (s : GraphState)
    (e : ErrorRecord) :
  last (error_log s) = Some e ->
  _determine_remediation_action C s e = complete ->
  let s' := fst (remediation_node C s) in
  get_pending_tasks s' = []
  /\ (forall i t, task_plan s !! i = Some t ->
        task_plan s' !! i
        = Some (if TaskStatus_eqb (status t) pending then with_status failed t else t))
  /\ length (task_plan s') = length (task_plan s)
  /\ error_log s'
     = error_log s
       ++ [mkError "completion" "remediation" "complete" "FORCED_COMPLETION"
             "Completing processing due to critical errors or max retries reached" 0]
  /\ agent_results s' = agent_results s
  /\ step C (remediation, s) = (answer_generator, s').
Proof.
  intros Hlast Hact s'.
  assert (Hs' : s' = fst (_handle_complete s e)).
  { subst s'. unfold remediation_node. now rewrite Hlast, Hact. }
  assert (Hplan : forall i t, task_plan s !! i = Some t ->
            task_plan s' !! i
            = Some (if TaskStatus_eqb (status t) pending then with_status failed t else t)).
  { intros i t Hl. rewrite Hs'. unfold _handle_complete. cbn [fst].
    cbn [add_error with_error_log with_task_plan task_plan].
    now rewrite lookup_map, Hl. }
  assert (Hpending : get_pending_tasks s' = []).
  { apply no_pending_tasks. intros i t' Hl. rewrite Hs' in Hl.
    unfold _handle_complete in Hl. cbn [fst] in Hl.
    cbn [add_error with_error_log with_task_plan task_plan] in Hl.
    rewrite lookup_map in Hl. destruct (task_plan s !! i) as [t|]; [|discriminate].
    injection Hl as <-. destruct (status t) eqn:E; cbn; congruence. }
  split; [exact Hpending|]. split; [exact Hplan|].
  split; [rewrite Hs'; cbn; apply length_map|].
  split; [now rewrite Hs'|]. split; [now rewrite Hs'|].
  unfold step. fold s'. f_equal.
  unfold _route_after_remediation. rewrite Hpending.
  replace (last (error_log s'))
    with (Some (mkError "completion" "remediation" "complete" "FORCED_COMPLETION"
             "Completing processing due to critical errors or max retries reached" 0)).
  - now destruct (has_critical_errors C s').
  - rewrite Hs'. cbn. now rewrite last_snoc.
Qed.

Lemma complete_action_closes_the_plan_witness :
  let e := mkError "T1" "A" "x" "UNKNOWN_ERROR" "boom" 3 in
  let s := state_of [mkTask "T1" "A" "x" [] None failed] [e] in
  let s' := fst (remediation_node blocked_scenario s) in
  get_pending_tasks s' = []
  /\ (forall i t, task_plan s !! i = Some t ->
        task_plan s' !! i
        = Some (if TaskStatus_eqb (status t) pending then with_status failed t else t))
  /\ length (task_plan s') = length (task_plan s)
  /\ error_log s'
     = error_log s
       ++ [mkError "completion" "remediation" "complete" "FORCED_COMPLETION"
             "Completing processing due to critical errors or max retries reached" 0]
  /\ agent_results s' = agent_results s
  /\ step blocked_scenario (remediation, s) = (answer_generator, s').
Proof.
  intros e s.
  apply (complete_action_closes_the_plan blocked_scenario s e); reflexivity.
Defined.

(** X9.  When the policy decides RETRY for a record whose task is in the
    plan, the remediation node sets that task (the first of that id) back to
    PENDING and changes no other task, raises the retry_count of the record
    in place by one, and appends a RETRY_ATTEMPT marker with the same count.
    The last record is then no longer fresh, the executor's own
    [_should_retry_task] answers False for the task (it reads the marker),
    and unless a critical error now holds the run goes back to the
    executor. *)
Theorem retry_action_resets_task_and_marks_record (C : Collaborators)
    (s : GraphState) (e : ErrorRecord) (i : nat) (t : TaskDefinition) :
  last (error_log s) = Some e ->
  _determine_remediation_action C s e = retry ->
  get_task_by_id s (err_task_id e) = Some (i, t) ->
  let s' := fst (remediation_node C s) in
  let marker := mkError (err_task_id e) (err_agent e) (err_tool e) "RETRY_ATTEMPT"
                        ("Retrying task due to " +:+ error_type e)
                        (retry_count e + 1) in
  task_plan s' = alter (with_status pending) i (task_plan s)
  /\ (exists l, error_log s = l ++ [e]
                /\ error_log s' = l ++ [with_retry_count (retry_count e + 1) e; marker])
  /\ agent_results s' = agent_results s
  /\ (exists e', last (error_log s') = Some e' /\ retry_count e' <> 0)
  /\ _should_retry_task s' (err_task_id e) = false
  /\ (has_critical_errors C s' = false ->
      fst (step C (remediation, s)) = agent_executor).
Proof.
  intros Hlast Hact Hget s' marker.
  assert (Hs' : s' = fst (_handle_retry s e)).
  { subst s'. unfold remediation_node. now rewrite Hlast, Hact. }
  apply last_Some in Hlast as [l Hl].
  assert (Hlog : error_log s'
                 = l ++ [with_retry_count (retry_count e + 1) e; marker]).
  { rewrite Hs'. unfold _handle_retry. rewrite Hget. cbn [fst].
    unfold add_error, set_latest_retry_count.
    cbn [error_log set_task_status with_task_plan with_error_log].
    rewrite Hl, alter_last, <- app_assoc. reflexivity. }
  assert (Hplan : task_plan s' = alter (with_status pending) i (task_plan s)).
  { rewrite Hs'. unfold _handle_retry. now rewrite Hget. }
  split; [exact Hplan|]. split; [now exists l|].
  split; [rewrite Hs'; unfold _handle_retry; now rewrite Hget|].
  assert (Hlast' : last (error_log s') = Some marker).
  { rewrite Hlog. now rewrite (last_app_cons l [marker]). }
  split; [exists marker; split; [exact Hlast' | cbn; lia]|].
  split.
  - unfold _should_retry_task. rewrite Hlog.
    change (l ++ [with_retry_count (retry_count e + 1) e; marker])
      with (l ++ [with_retry_count (retry_count e + 1) e] ++ [marker]).
    rewrite app_assoc, List.filter_app.
    cbn [List.filter err_task_id marker]. rewrite String.eqb_refl, last_snoc.
    cbn [error_type marker]. now destruct (Nat.leb 3 (retry_count marker)).
  - intros Hc. unfold step. fold s'. unfold _route_after_remediation.
    rewrite Hlast', Hc. cbn [error_type marker].
    change (Str.mem "RETRY_ATTEMPT" ["API_TIMEOUT"; "NETWORK_ERROR"]) with false.
    change (String.eqb "RETRY_ATTEMPT" "INVALID_STOCK_CODE") with false.
    cbn [andb].
    destruct (get_pending_tasks s') as [|p r] eqn:E; [|reflexivity].
    exfalso.
    apply get_task_by_id_lookup in Hget as [Hi _].
    assert (Hin : In (i, with_status pending t) (get_pending_tasks s')).
    { apply in_get_pending_tasks. split; [|reflexivity].
      rewrite Hplan, list_lookup_alter, decide_True by reflexivity. now rewrite Hi. }
    now rewrite E in Hin.
Qed.

Lemma retry_action_resets_task_and_marks_record_witness :
  let e := mkError "T1" "A" "x" "NETWORK_ERROR" "Connection timeout" 0 in
  let s := failed_state 0 in
  let s' := fst (remediation_node flaky_scenario s) in
  let marker := mkError "T1" "A" "x" "RETRY_ATTEMPT"
                        "Retrying task due to NETWORK_ERROR" 1 in
  task_plan s' = alter (with_status pending) 0 (task_plan s)
  /\ (exists l, error_log s = l ++ [e]
                /\ error_log s' = l ++ [with_retry_count 1 e; marker])
  /\ agent_results s' = agent_results s
  /\ (exists e', last (error_log s') = Some e' /\ retry_count e' <> 0)
  /\ _should_retry_task s' "T1" = false
  /\ (has_critical_errors flaky_scenario s' = false ->
      fst (step flaky_scenario (remediation, s)) = agent_executor).
Proof.
  intros e s.
  apply (retry_action_resets_task_and_marks_record flaky_scenario s e 0
           (mkTask "T1" "A" "x" [] None failed)); reflexivity.
Defined.

(** ** The plan validator *)

Lemma mem_In x l : Str.mem x l = true <-> In x l.
Proof.
  unfold Str.mem. rewrite existsb_exists. split.
  - intros (y & Hy & Heq). apply String.eqb_eq in Heq. now subst.
  - intros H. exists x. split; [exact H | apply String.eqb_refl].
Qed.

Lemma length_remove_dups_le (l : list string) : length (remove_dups l) <= length l.
Proof.
  induction l as [|x l IH]; simpl; [lia|].
  destruct (decide_rel elem_of x l); simpl; lia.
Qed.

(** [len(ids) == len(set(ids))] says that no id is repeated. *)
Lemma length_remove_dups_NoDup (l : list string) :
  length l = length (remove_dups l) <-> NoDup l.
Proof.
  induction l as [|x l IH]; simpl.
  - split; [constructor | reflexivity].
  - pose proof (length_remove_dups_le l) as Hle.
    destruct (decide_rel elem_of x l) as [Hin | Hnin]; simpl.
    + split; [lia|]. intros H. apply NoDup_cons in H as [H _]. contradiction.
    + rewrite NoDup_cons. split.
      * intros H. split; [exact Hnin|]. apply IH. lia.
      * intros [_ H]. apply IH in H. lia.
Qed.

(** X10.  [_validate_task_plan] accepts a plan exactly when no task id is
    repeated, every dependency that is not the empty string is the id of a
    task of the plan, and no task names itself as its dependency.  Nothing
    else is checked: longer dependency cycles pass. *)
Theorem validate_task_plan_accepts_iff (tasks : list TaskDefinition) :
  _validate_task_plan tasks = true
  <-> NoDup (List.map task_id tasks)
      /\ (forall t x, In t tasks -> depends_on t = Some x -> x <> "" ->
                      In x (List.map task_id tasks))
      /\ (forall t, In t tasks -> depends_on t <> Some (task_id t)).
Proof.
  unfold _validate_task_plan.
  destruct (Nat.eqb (length (List.map task_id tasks))
                    (length (remove_dups (List.map task_id tasks)))) eqn:Hlen; cbn [negb].
  2:{ split; [discriminate|]. intros (Hnd & _).
      apply length_remove_dups_NoDup, Nat.eqb_eq in Hnd. congruence. }
  apply Nat.eqb_eq, length_remove_dups_NoDup in Hlen.
  match goal with |- context [if existsb ?f tasks then _ else _] =>
    destruct (existsb f tasks) eqn:Hdep end.
  { split; [discriminate|]. intros (_ & Hd & _). exfalso.
    apply existsb_exists in Hdep as (t & Hin & Ht).
    apply andb_true_iff in Ht as [Htr Hmem].
    destruct (depends_on t) as [x|] eqn:Hx; [|discriminate].
    simpl in Htr. apply negb_true_iff in Htr, Hmem.
    assert (Hne : x <> "") by (intros ->; discriminate).
    apply (Hd t x Hin Hx) in Hne. apply mem_In in Hne. congruence. }
  match goal with |- context [if existsb ?f tasks then _ else _] =>
    destruct (existsb f tasks) eqn:Hself end.
  { split; [discriminate|]. intros (_ & _ & Hs). exfalso.
    apply existsb_exists in Hself as (t & Hin & Ht).
    destruct (depends_on t) as [x|] eqn:Hx; [|discriminate].
    apply String.eqb_eq in Ht. subst x. now apply (Hs t Hin). }
  split; [intros _ | reflexivity].
  split; [exact Hlen|]. split.
  - intros t x Hin Hx Hne. apply mem_In.
    destruct (Str.mem x (List.map task_id tasks)) eqn:Hmem; [reflexivity|]. exfalso.
    assert (Hex : existsb (fun t => truthy (depends_on t)
                            && negb (match depends_on t with
                                     | Some d => Str.mem d (List.map task_id tasks)
                                     | None => false
                                     end)) tasks = true).
    { apply existsb_exists. exists t. split; [exact Hin|].
      rewrite Hx, Hmem. simpl. apply String.eqb_neq in Hne. now rewrite Hne. }
    congruence.
  - intros t Hin Hx.
    assert (Hex : existsb (fun t => match depends_on t with
                                    | Some d => String.eqb d (task_id t)
                                    | None => false
                                    end) tasks = true).
    { apply existsb_exists. exists t. split; [exact Hin|].
      rewrite Hx. apply String.eqb_refl. }
    congruence.
Qed.

(** ** Preparing the inputs of a task *)

Lemma dict_get_set_eq key value d : dict_get key (dict_set key value d) = Some value.
Proof.
  induction d as [|[k v] d IH]; simpl.
  - now rewrite String.eqb_refl.
  - destruct (String.eqb k key) eqn:E; simpl; now rewrite E.
Qed.

Lemma dict_get_set_ne key key' value d :
  key <> key' -> dict_get key' (dict_set key value d) = dict_get key' d.
Proof.
  intros Hne. induction d as [|[k v] d IH]; simpl.
  - apply String.eqb_neq in Hne. now rewrite Hne.
  - destruct (String.eqb k key) eqn:E; simpl.
    + apply String.eqb_eq in E. subst k.
      apply String.eqb_neq in Hne. now rewrite Hne.
    + now rewrite IH.
Qed.

(** X11.  [prepare_inputs] works on a copy of the task's inputs: the key
    session_id always holds the state's session id, the key
    dependency_result holds the result stored for the dependency when
    [depends_on] is non-empty and has a result (overriding an input of that
    name) and is otherwise as in the task's inputs, and every other key
    reads as in the task's inputs.  It is [_prepare_task_inputs] followed by
    the session id. *)
Theorem prepare_inputs_lookup (s : GraphState) (t : TaskDefinition) :
  dict_get "session_id" (prepare_inputs s t) = Some (session_id s)
  /\ dict_get "dependency_result" (prepare_inputs s t)
     = match depends_on t with
       | Some d => if String.eqb d "" then dict_get "dependency_result" (inputs t)
                   else match agent_results s !! d with
                        | Some r => Some r
                        | None => dict_get "dependency_result" (inputs t)
                        end
       | None => dict_get "dependency_result" (inputs t)
       end
  /\ (forall key, key <> "session_id" -> key <> "dependency_result" ->
        dict_get key (prepare_inputs s t) = dict_get key (inputs t))
  /\ prepare_inputs s t
     = dict_set "session_id" (session_id s) (_prepare_task_inputs s t).
Proof.
  split; [apply dict_get_set_eq|]. split; [|split; [|reflexivity]].
  - unfold prepare_inputs. rewrite dict_get_set_ne by discriminate.
    destruct (depends_on t) as [d|]; [|reflexivity].
    cbn [truthy]. destruct (String.eqb d ""); cbn [negb]; [reflexivity|].
    destruct (agent_results s !! d); [apply dict_get_set_eq | reflexivity].
  - intros key Hs Hd. unfold prepare_inputs.
    rewrite dict_get_set_ne by congruence.
    destruct (depends_on t) as [d|]; [|reflexivity].
    destruct (truthy (Some d)); [|reflexivity].
    destruct (agent_results s !! d); [|reflexivity].
    apply dict_get_set_ne. congruence.
Qed.

(** ** What a run never changes *)

Lemma retried_from_refl e : retried_from e e.
Proof. split; [now destruct e | lia]. Qed.

Lemma retried_from_trans e1 e2 e3 :
  retried_from e1 e2 -> retried_from e2 e3 -> retried_from e1 e3.
Proof.
  intros [H1 L1] [H2 L2]. split; [|lia].
  rewrite H2 at 1. rewrite H1. reflexivity.
Qed.

Lemma lookup_snoc_old {A} (l : list A) (x : A) i e :
  l !! i = Some e -> (l ++ [x]) !! i = Some e.
Proof. intros H. now apply lookup_app_l_Some. Qed.

(** One step keeps every record of the log at its index; only its
    retry_count may have gone up. *)
Lemma step_keeps_records C n s i e :
  error_log s !! i = Some e ->
  exists e', error_log (snd (step C (n, s))) !! i = Some e' /\ retried_from e e'.
Proof.
  intros Hl.
  assert (Hsame : exists e', error_log s !! i = Some e' /\ retried_from e e')
    by (exists e; split; [exact Hl | apply retried_from_refl]).
  assert (Hsnoc : forall x, exists e',
             (error_log s ++ [x]) !! i = Some e' /\ retried_from e e')
    by (intros x; exists e; split;
        [now apply lookup_snoc_old | apply retried_from_refl]).
  destruct n; cbn [step snd fst]; try exact Hsame.
  - unfold router_node.
    destruct (classifier_llm C (original_query s)); [exact Hsame | apply Hsnoc].
  - unfold planner_node.
    destruct (planner_llm C (original_query s)) as [[tasks|]|m];
      [exact Hsame | apply Hsnoc | apply Hsnoc].
  - destruct (executor_cases C s) as [-> | [(j & t & r & _ & _ & _ & ->)
                                           | (j & t & m & _ & _ & _ & ->)]];
      [exact Hsame | exact Hsame | apply Hsnoc].
  - unfold remediation_node.
    destruct (last (error_log s)) as [latest|] eqn:Hlast; [|exact Hsame].
    destruct (_determine_remediation_action C s latest).
    + unfold _handle_retry.
      destruct (get_task_by_id s (err_task_id latest)) as [[k u]|]; [|exact Hsame].
      cbn [fst]. unfold add_error, set_latest_retry_count.
      cbn [error_log set_task_status with_task_plan with_error_log].
      apply last_Some in Hlast as [l Hlog]. rewrite Hlog, alter_last.
      rewrite Hlog in Hl.
      destruct (decide (i < length l)) as [Hlt | Hge].
      * exists e. split; [|apply retried_from_refl].
        apply lookup_snoc_old. rewrite lookup_app_l in Hl |- * by exact Hlt. exact Hl.
      * rewrite lookup_app_r in Hl by lia.
        destruct (i - length l) as [|d] eqn:Hd; [|now destruct d].
        injection Hl as <-.
        exists (with_retry_count (retry_count latest + 1) latest). split.
        -- apply lookup_snoc_old. rewrite lookup_app_r by lia. now rewrite Hd.
        -- split; [reflexivity | simpl; lia].
    + unfold _handle_replan. cbn [fst]. cbn.
      destruct (get_task_by_id s (err_task_id latest)) as [[k u]|]; apply Hsnoc.
    + unfold _handle_continue. cbn [fst]. cbn.
      destruct (get_task_by_id s (err_task_id latest)) as [[k u]|]; apply Hsnoc.
    + unfold _handle_complete. cbn [fst]. cbn. apply Hsnoc.
  - unfold answer_generator_node.
    destruct (answer_llm C s); [exact Hsame | apply Hsnoc].
Qed.

(** X12.  The error log only grows along a run: a record that is at index
    [i] after [k] steps is still at index [i] after any number of further
    steps, with the same task id, agent, tool, type and message; only its
    retry_count may differ, and it has not gone down. *)
Theorem error_log_only_grows (C : Collaborators) (query session : string)
    (k j i : nat) (e : ErrorRecord) :
  error_log (snd (run C k (invoke_start query session))) !! i = Some e ->
  exists e', error_log (snd (run C (k + j) (invoke_start query session))) !! i = Some e'
             /\ retried_from e e'.
Proof.
  intros Hl. induction j as [|j (e1 & H1 & R1)].
  - rewrite Nat.add_0_r. exists e. split; [exact Hl | apply retried_from_refl].
  - replace (k + S j) with (S (k + j)) by lia. rewrite run_succ.
    destruct (run C (k + j) (invoke_start query session)) as [n s].
    destruct (step_keeps_records C n s i e1 H1) as (e2 & H2 & R2).
    exists e2. split; [exact H2 | now apply (retried_from_trans e e1 e2)].
Qed.

Lemma error_log_only_grows_witness :
  exists e',
    error_log (snd (run flaky_scenario (3 + 1) (invoke_start "q" "s"))) !! 0 = Some e'
    /\ retried_from (mkError "T1" "A" "x" "NETWORK_ERROR" "Connection timeout" 0) e'.
Proof.
  apply (error_log_only_grows flaky_scenario "q" "s" 3 1 0
           (mkError "T1" "A" "x" "NETWORK_ERROR" "Connection timeout" 0)).
  reflexivity.
Defined.

Lemma executor_pass_frame_helper C s :
  original_query (fst (agent_executor_node C s)) = original_query s
  /\ session_id (fst (agent_executor_node C s)) = session_id s
  /\ query_complexity (fst (agent_executor_node C s)) = query_complexity s
  /\ final_answer (fst (agent_executor_node C s)) = final_answer s.
Proof.
  destruct (_get_next_executable_task s (get_pending_tasks s)) as [[i t]|] eqn:Hnext.
  - rewrite (executor_picks C s i t Hnext). cbv zeta.
    destruct (dispatch C (running_state s i) (with_status running t)) as [r|m];
      cbn [fst]; unfold mark_task_completed, mark_task_failed;
      now destruct (get_task_by_id (running_state s i) (task_id t)) as [[k u]|].
  - now rewrite (executor_skips C s Hnext).
Qed.

(** What each node leaves alone. *)
Lemma node_frame C n s :
  let s' := snd (step C (n, s)) in
  original_query s' = original_query s
  /\ session_id s' = session_id s
  /\ (n <> router -> query_complexity s' = query_complexity s)
  /\ (n <> agent_executor -> agent_results s' = agent_results s)
  /\ (n <> answer_generator -> n <> fallback -> final_answer s' = final_answer s).
Proof.
  cbv zeta. destruct n; cbn [step snd fst].
  - unfold router_node. destruct (classifier_llm C (original_query s));
      repeat split; intros; congruence.
  - unfold planner_node.
    destruct (planner_llm C (original_query s)) as [[tasks|]|m];
      repeat split; intros; congruence.
  - destruct (executor_pass_frame_helper C s) as (H1 & H2 & H3 & H4).
    repeat split; intros; congruence.
  - unfold remediation_node. destruct (last (error_log s)) as [e|];
      [|repeat split; intros; congruence].
    destruct (_determine_remediation_action C s e);
      unfold _handle_retry, _handle_replan, _handle_continue, _handle_complete;
      destruct (get_task_by_id s (err_task_id e)) as [[k u]|];
      repeat split; intros; congruence.
  - unfold answer_generator_node. destruct (answer_llm C s);
      repeat split; intros; congruence.
  - repeat split; intros; congruence.
  - repeat split; intros; congruence.
Qed.

Lemma successor_not_router C n s : fst (step C (n, s)) <> router.
Proof.
  pose proof (successor C n s) as H. intros E. rewrite E in H.
  destruct n; simpl in H; intuition discriminate.
Qed.

Lemma successor_of_terminal C n s :
  fst (step C (n, s)) <> END -> n <> answer_generator /\ n <> fallback /\ n <> END.
Proof. intros H. destruct n; repeat split; try discriminate; now destruct H. Qed.

Lemma results_grow_along_run C c x j :
  is_Some (agent_results (snd c) !! x) ->
  is_Some (agent_results (snd (run C j c)) !! x).
Proof.
  revert c. induction j as [|j IH]; intros c H; [exact H|].
  cbn [run]. apply IH. destruct c as [n s].
  apply (results_grow C n s); [apply step_in_states_of_step | exact H].
Qed.

(** X13.  Along every run the query and the session id stay what the
    invocation gave; the complexity label is the one the router left after
    the first step; the final answer stays empty until the run reaches END
    (only the answer generator and the fallback node write it); and a key of
    the results, once present, is present for the rest of the run. *)
Theorem run_invariants (C : Collaborators) (query session : string) (k : nat) :
  let c := run C k (invoke_start query session) in
  original_query (snd c) = query
  /\ session_id (snd c) = session
  /\ query_complexity (snd (run C (1 + k) (invoke_start query session)))
     = query_complexity (snd (run C 1 (invoke_start query session)))
  /\ (fst c <> END -> final_answer (snd c) = "")
  /\ (forall j x, is_Some (agent_results (snd c) !! x) ->
        is_Some (agent_results (snd (run C (k + j) (invoke_start query session))) !! x)).
Proof.
  cbv zeta. split; [|split; [|split; [|split]]].
  - induction k as [|k IH]; [reflexivity|]. rewrite run_succ.
    destruct (run C k (invoke_start query session)) as [n s].
    destruct (node_frame C n s) as (H & _). now rewrite H.
  - induction k as [|k IH]; [reflexivity|]. rewrite run_succ.
    destruct (run C k (invoke_start query session)) as [n s].
    destruct (node_frame C n s) as (_ & H & _). now rewrite H.
  - induction k as [|k IH]; [reflexivity|].
    replace (1 + S k) with (S (1 + k)) by lia. rewrite run_succ, <- IH.
    assert (Hn : fst (run C (1 + k) (invoke_start query session)) <> router).
    { replace (1 + k) with (S k) by lia. rewrite run_succ.
      destruct (run C k (invoke_start query session)) as [n s].
      apply successor_not_router. }
    destruct (run C (1 + k) (invoke_start query session)) as [n s].
    destruct (node_frame C n s) as (_ & _ & H & _). now apply H.
  - induction k as [|k IH]; [reflexivity|]. rewrite run_succ.
    destruct (run C k (invoke_start query session)) as [n s]. intros Hend.
    apply successor_of_terminal in Hend as (Ha & Hf & He).
    destruct (node_frame C n s) as (_ & _ & _ & _ & H).
    rewrite (H Ha Hf). now apply IH.
  - intros j x H. rewrite run_add. now apply results_grow_along_run.
Qed.

(** ** Runs on which every agent call returns *)

Lemma indexed_from_app {A} (a b : list A) : forall k,
  indexed_from k (a ++ b) = indexed_from k a ++ indexed_from (k + length a) b.
Proof.
  induction a as [|x a IH]; intros k; simpl.
  - now rewrite Nat.add_0_r.
  - rewrite IH. now replace (S k + length a) with (k + S (length a)) by lia.
Qed.

Lemma filter_pending_none (l : list TaskDefinition) k :
  (forall t, In t l -> status t <> pending) ->
  List.filter (fun p : nat * TaskDefinition => TaskStatus_eqb (status (snd p)) pending)
              (indexed_from k l) = [].
Proof.
  revert k. induction l as [|t l IH]; intros k H; [reflexivity|].
  simpl. destruct (status t) eqn:E; simpl;
    try (apply IH; intros u Hu; apply H; now right).
  exfalso. apply (H t); [now left | exact E].
Qed.

Lemma filter_pending_all (l : list TaskDefinition) k :
  (forall t, In t l -> status t = pending) ->
  List.filter (fun p : nat * TaskDefinition => TaskStatus_eqb (status (snd p)) pending)
              (indexed_from k l) = indexed_from k l.
Proof.
  revert k. induction l as [|t l IH]; intros k H; [reflexivity|].
  simpl. rewrite (H t) by now left. simpl. f_equal.
  apply IH. intros u Hu. apply H. now right.
Qed.

(** With unique ids, looking a task up by its id finds the task itself. *)
Lemma find_by_id_unique (l : list TaskDefinition) : forall k i t,
  NoDup (List.map task_id l) -> l !! i = Some t ->
  List.find (fun p : nat * TaskDefinition => String.eqb (task_id (snd p)) (task_id t))
            (indexed_from k l) = Some (k + i, t).
Proof.
  induction l as [|u l IH]; intros k i t Hnd Hl; [discriminate|].
  simpl in Hnd. apply NoDup_cons in Hnd as [Hnin Hnd].
  destruct i as [|i]; simpl in Hl |- *.
  - injection Hl as ->. rewrite String.eqb_refl. f_equal. f_equal. lia.
  - destruct (String.eqb_spec (task_id u) (task_id t)) as [E | _].
    + exfalso. apply Hnin. rewrite E. apply list_elem_of_In, in_map.
      apply list_elem_of_In. now apply list_elem_of_lookup_2 in Hl.
    + rewrite (IH (S k) i t Hnd Hl). f_equal. f_equal. lia.
Qed.

Lemma length_take_le {A} (l : list A) k : k <= length l -> length (take k l) = k.
Proof. intros H. rewrite length_take. lia. Qed.

Section HealthyRun.

Variable plan : list TaskData.

Lemma progress_lookup k d :
  plan !! k = Some d ->
  progress plan k
  = List.map (fun d => with_status completed (task_of_data d)) (take k plan)
    ++ task_of_data d :: List.map task_of_data (drop (S k) plan).
Proof. intros H. unfold progress. now rewrite (drop_S plan d k H). Qed.

Lemma progress_succ k d :
  plan !! k = Some d ->
  alter (with_status completed) k (alter (with_status running) k (progress plan k))
  = progress plan (S k).
Proof.
  intros H. rewrite (progress_lookup k d H). unfold progress.
  assert (Hlen : length (List.map (fun d => with_status completed (task_of_data d))
                                  (take k plan)) = k).
  { rewrite length_map. apply length_take_le.
    apply lookup_lt_Some in H. lia. }
  rewrite <- (Nat.add_0_r k) at 1 2.
  rewrite <- Hlen at 1 2. rewrite !alter_app_r. cbn [alter list_alter].
  rewrite (take_S_r plan k d H), map_app, <- app_assoc. reflexivity.
Qed.

Lemma progress_ids k : List.map task_id (progress plan k) = List.map td_task_id plan.
Proof.
  unfold progress. rewrite map_app, !map_map. cbn [task_id with_status task_of_data new_task].
  rewrite <- map_app. now rewrite take_drop.
Qed.

Lemma progress_pending s k :
  k <= length plan -> task_plan s = progress plan k ->
  get_pending_tasks s = indexed_from k (List.map task_of_data (drop k plan)).
Proof.
  intros Hk Hplan. unfold get_pending_tasks. rewrite Hplan. unfold progress.
  rewrite indexed_from_app, List.filter_app.
  rewrite filter_pending_none, filter_pending_all.
  - rewrite length_map, length_take_le by exact Hk. reflexivity.
  - intros t Hin. apply in_map_iff in Hin as (d & <- & _). reflexivity.
  - intros t Hin. apply in_map_iff in Hin as (d & <- & _). discriminate.
Qed.

Variable C : Collaborators.
Hypothesis unique_ids : NoDup (List.map td_task_id plan).
Hypothesis in_order : ordered_plan plan.
Hypothesis agents_return : reliable C plan.

Lemma healthy_executor_pass k d s :
  plan !! k = Some d -> executed plan k s ->
  executed plan (S k) (fst (agent_executor_node C s)).
Proof.
  intros Hd (Hplan & Hlog & Hres).
  assert (Hk : k < length plan) by now apply lookup_lt_Some in Hd.
  assert (Hnext : _get_next_executable_task s (get_pending_tasks s)
                  = Some (k, task_of_data d)).
  { rewrite (progress_pending s k) by (lia || exact Hplan).
    rewrite (drop_S plan d k Hd). cbn [List.map indexed_from].
    unfold _get_next_executable_task. cbn [List.find snd].
    replace (negb (truthy (depends_on (task_of_data d)))
             || in_results s (depends_on (task_of_data d))) with true; [reflexivity|].
    symmetry. cbn [depends_on task_of_data new_task].
    destruct (td_depends_on d) as [x|] eqn:Hx; [|reflexivity].
    cbn [truthy in_results]. destruct (String.eqb_spec x "") as [->|Hne]; [reflexivity|].
    cbn [negb orb].
    destruct (in_order k d x Hd Hx Hne) as (j & d' & Hj & Hd' & <-).
    apply bool_decide_eq_true. now apply (Hres j d'). }
  rewrite (executor_picks C s k (task_of_data d) Hnext). cbv zeta.
  destruct (agents_return (running_state s k) d) as [r Hr].
  { apply list_elem_of_In. eapply list_elem_of_lookup_2. exact Hd. }
  rewrite Hr. cbn [fst].
  assert (Hget : get_task_by_id (running_state s k) (task_id (task_of_data d))
                 = Some (k, with_status running (task_of_data d))).
  { unfold get_task_by_id.
    change (task_id (task_of_data d))
      with (task_id (with_status running (task_of_data d))).
    rewrite (find_by_id_unique _ 0 k (with_status running (task_of_data d))); [reflexivity| |].
    - unfold running_state, set_task_status. cbn [task_plan with_task_plan].
      now rewrite map_task_id_alter, Hplan, progress_ids.
    - unfold running_state, set_task_status. cbn [task_plan with_task_plan].
      rewrite list_lookup_alter, decide_True by reflexivity.
      rewrite Hplan, (progress_lookup k d Hd).
      rewrite lookup_app_r by (rewrite length_map, length_take_le; lia).
      rewrite length_map, length_take_le, Nat.sub_diag by lia. reflexivity. }
  unfold mark_task_completed. rewrite Hget.
  split; [|split].
  - cbn. rewrite Hplan. now apply (progress_succ k d).
  - cbn. exact Hlog.
  - intros j d' Hj Hd'. cbn.
    destruct (decide (td_task_id d = td_task_id d')) as [E | Hne].
    + rewrite E, lookup_insert_eq. now eexists.
    + rewrite lookup_insert_ne by exact Hne.
      apply (Hres j d'); [|exact Hd'].
      destruct (decide (j = k)) as [->|]; [|lia]. congruence.
Qed.

Lemma healthy_route k s :
  k <= length plan -> executed plan k s ->
  edge_after_execution (_route_after_execution s)
  = if Nat.ltb k (length plan) then agent_executor else answer_generator.
Proof.
  intros Hk (Hplan & Hlog & _). unfold _route_after_execution.
  rewrite Hlog. cbn [last]. rewrite (progress_pending s k Hk Hplan).
  destruct (Nat.ltb_spec k (length plan)) as [Hlt | Hge].
  - destruct (lookup_lt_is_Some_2 plan k Hlt) as [d Hd].
    now rewrite (drop_S plan d k Hd).
  - now rewrite drop_ge by lia.
Qed.

Lemma healthy_run_prefix query session k :
  classifier_llm C query = Returned "COMPLEX" ->
  planner_llm C query = Returned (Some plan) ->
  k < length plan ->
  fst (run C (2 + k) (invoke_start query session)) = agent_executor
  /\ executed plan k (snd (run C (2 + k) (invoke_start query session))).
Proof.
  intros Hclass Hplan Hk. induction k as [|k IH].
  - assert (H2 : run C 2 (invoke_start query session)
                 = (agent_executor,
                    mkState query session (Some "COMPLEX")
                            (List.map task_of_data plan) ∅ [] "")).
    { change (run C 2 (invoke_start query session))
        with (step C (step C (router, initial_state query session))).
      assert (H1 : step C (router, initial_state query session)
                   = (planner, mkState query session (Some "COMPLEX") [] ∅ [] "")).
      { unfold step, router_node. cbn [initial_state original_query].
        now rewrite Hclass. }
      rewrite H1. unfold step, planner_node. cbn [original_query].
      now rewrite Hplan. }
    change (2 + 0) with 2. rewrite H2. split; [reflexivity|].
    split; [reflexivity|]. split; [reflexivity|]. intros j d Hj. lia.
  - destruct IH as [Hn Hex]; [lia|].
    replace (2 + S k) with (S (2 + k)) by lia. rewrite run_succ.
    destruct (run C (2 + k) (invoke_start query session)) as [n s].
    cbn [fst snd] in Hn, Hex. subst n.
    destruct (lookup_lt_is_Some_2 plan k) as [d Hd]; [lia|].
    pose proof (healthy_executor_pass k d s Hd Hex) as Hex'.
    cbn [step fst snd]. split; [|exact Hex'].
    rewrite (healthy_route (S k) _) by (lia || exact Hex').
    destruct (Nat.ltb_spec (S k) (length plan)); [reflexivity | lia].
Qed.

End HealthyRun.

(** X14.  A healthy run executes the plan top to bottom.  When the query is
    classified COMPLEX, the planner's reply has unique task ids and every
    non-empty dependency names an earlier task of the reply, every agent
    call for a task of the plan returns, and the [3 + length plan] steps the
    run needs stay below the recursion limit of the compiled graph, then
    after [2 + k] steps the first [k] tasks are COMPLETED and the others
    still PENDING; after [2 + length plan] steps every task is COMPLETED,
    every task id has a result, the error log is empty and the next node is
    the answer generator; one step later the run has ended. *)
Theorem healthy_run_completes_in_plan_order (C : Collaborators)
    (plan : list TaskData) (query session : string) :
  classifier_llm C query = Returned "COMPLEX" ->
  planner_llm C query = Returned (Some plan) ->
  NoDup (List.map td_task_id plan) ->
  ordered_plan plan ->
  reliable C plan ->
  plan <> [] ->
  3 + length plan < recursion_limit ->
  (forall k, k < length plan ->
     fst (run C (2 + k) (invoke_start query session)) = agent_executor
     /\ task_plan (snd (run C (2 + k) (invoke_start query session))) = progress plan k)
  /\ fst (run C (2 + length plan) (invoke_start query session)) = answer_generator
  /\ task_plan (snd (run C (2 + length plan) (invoke_start query session)))
     = List.map (fun d => with_status completed (task_of_data d)) plan
  /\ error_log (snd (run C (2 + length plan) (invoke_start query session))) = []
  /\ (forall d, In d plan ->
        is_Some (agent_results (snd (run C (2 + length plan)
                                         (invoke_start query session)))
                 !! td_task_id d))
  /\ fst (run C (3 + length plan) (invoke_start query session)) = END.
Proof.
  intros Hclass Hplan Hnd Hord Hrel Hne _.
  assert (Hprefix : forall k, k < length plan ->
            fst (run C (2 + k) (invoke_start query session)) = agent_executor
            /\ executed plan k (snd (run C (2 + k) (invoke_start query session)))).
  { intros k Hk. now apply healthy_run_prefix. }
  split.
  { intros k Hk. destruct (Hprefix k Hk) as (Hn & Hp & _). now split. }
  assert (Hlen : 0 < length plan) by (destruct plan; [contradiction | simpl; lia]).
  destruct (Hprefix (length plan - 1)) as [Hn Hex]; [lia|].
  assert (Hlast : fst (run C (2 + length plan) (invoke_start query session))
                  = answer_generator
                  /\ executed plan (length plan)
                       (snd (run C (2 + length plan) (invoke_start query session)))).
  { replace (2 + length plan) with (S (2 + (length plan - 1))) by lia.
    rewrite run_succ.
    destruct (run C (2 + (length plan - 1)) (invoke_start query session)) as [n s].
    cbn [fst snd] in Hn, Hex. subst n.
    destruct (lookup_lt_is_Some_2 plan (length plan - 1)) as [d Hd]; [lia|].
    pose proof (healthy_executor_pass plan C Hnd Hord Hrel (length plan - 1) d s Hd Hex)
      as Hex'.
    replace (S (length plan - 1)) with (length plan) in Hex' by lia.
    cbn [step fst snd]. split; [|exact Hex'].
    rewrite (healthy_route plan (length plan) _) by (lia || exact Hex').
    now rewrite Nat.ltb_irrefl. }
  destruct Hlast as (Hnode & Htasks & Hlog & Hres).
  split; [exact Hnode|]. split.
  { rewrite Htasks. unfold progress.
    now rewrite take_ge, drop_ge, app_nil_r by lia. }
  split; [exact Hlog|]. split.
  { intros d Hin. apply list_elem_of_In, list_elem_of_lookup_1 in Hin as [j Hj].
    apply (Hres j d); [|exact Hj]. now apply lookup_lt_Some in Hj. }
  replace (3 + length plan) with (S (2 + length plan)) by lia. rewrite run_succ.
  destruct (run C (2 + length plan) (invoke_start query session)) as [n s].
  cbn [fst] in Hnode. now subst n.
Qed.

Lemma healthy_run_completes_in_plan_order_witness :
  let C := answering_scenario chained_plan in
  (forall k, k < 2 ->
     fst (run C (2 + k) (invoke_start "q" "s")) = agent_executor
     /\ task_plan (snd (run C (2 + k) (invoke_start "q" "s"))) = progress chained_plan k)
  /\ fst (run C 4 (invoke_start "q" "s")) = answer_generator
  /\ task_plan (snd (run C 4 (invoke_start "q" "s")))
     = List.map (fun d => with_status completed (task_of_data d)) chained_plan
  /\ error_log (snd (run C 4 (invoke_start "q" "s"))) = []
  /\ (forall d, In d chained_plan ->
        is_Some (agent_results (snd (run C 4 (invoke_start "q" "s"))) !! td_task_id d))
  /\ fst (run C 5 (invoke_start "q" "s")) = END.
Proof.
  intros C.
  apply (healthy_run_completes_in_plan_order C chained_plan "q" "s").
  - reflexivity.
  - reflexivity.
  - apply (bool_decide_unpack _). vm_compute. exact I.
  - intros i d x Hd Hx Hne.
    destruct i as [|[|i]]; simpl in Hd; try discriminate; injection Hd as <-.
    + discriminate Hx.
    + injection Hx as <-. exists 0, (mkTaskData "T1" "A" "x" [] None).
      split; [lia | split; reflexivity].
  - intros s d Hin. destruct Hin as [<- | [<- | []]]; eexists; reflexivity.
  - discriminate.
  - unfold recursion_limit. simpl. lia.
Defined.

(** ** Runs of the compiled graph *)

Lemma quiet_executor C s : agent_executor_node (quiet C) s = agent_executor_node C s.
Proof. reflexivity. Qed.

Lemma quiet_remediation C s : remediation_node (quiet C) s = remediation_node C s.
Proof. reflexivity. Qed.

(** A super-step of the compiled graph is a step of the state machine for
    the collaborators that do not raise. *)
Lemma superstep_quiet C c : superstep C c = step (quiet C) c.
Proof.
  destruct c as [n s]. destruct n; cbn [superstep step].
  - unfold router_node. cbn [classifier_llm quiet].
    destruct (classifier_llm C (original_query s)) as [content|m]; reflexivity.
  - unfold planner_node, planner_except. cbn [planner_llm quiet].
    destruct (planner_llm C (original_query s)) as [[tasks|]|m]; reflexivity.
  - rewrite quiet_executor, executor_update_echo. reflexivity.
  - rewrite quiet_remediation, remediation_update_echo. reflexivity.
  - unfold answer_generator_node. cbn [answer_llm quiet].
    destruct (answer_llm C s) as [final|m]; reflexivity.
  - reflexivity.
  - reflexivity.
Qed.

Lemma supersteps_quiet C k : forall c, supersteps C k c = run (quiet C) k c.
Proof.
  induction k as [|k IH]; intros c; [reflexivity|].
  cbn [supersteps run]. now rewrite superstep_quiet, IH.
Qed.

(** ** A run whose planning fails *)

(** X15.  When the planner's LLM raises or returns no function call (the
    classifier's reply being neither SIMPLE nor OOS, or the classifier
    raising) and the knowledge agent is registered and returns, the compiled
    graph runs router, planner, executor, answer generator and ends after
    four super-steps.  The planner appends a PLANNING_ERROR record to the
    state it was given, but the dict it returns holds the fallback plan
    alone, so the record is not kept: the error log is empty at every step,
    remediation is never entered, and the final state holds the completed
    fallback task and its result. *)
Theorem planning_failure_run (C : Collaborators) (query session : string) (a : Agent) :
  classifier_llm C query <> Returned "SIMPLE" ->
  classifier_llm C query <> Returned "OOS" ->
  (forall tasks, planner_llm C query <> Returned (Some tasks)) ->
  get_agent C "知识库agent" = Some a ->
  (forall s t, exists r, a s t = Returned r) ->
  let fallback_task := mkTask "fallback_task_1" "知识库agent" "金融知识查询"
                              [("query", query)] None in
  exists message r answer,
    supersteps C 1 (invoke_start query session)
    = (planner, mkState query session (Some "COMPLEX") [] ∅ [] "")
    /\ error_log (fst (planner_node C (mkState query session (Some "COMPLEX") [] ∅ [] "")))
       = [mkError "planning" "planner" "llm_planning" "PLANNING_ERROR" message 0]
    /\ upd_error_log (snd (planner_node C (mkState query session (Some "COMPLEX")
                                                   [] ∅ [] ""))) = None
    /\ supersteps C 2 (invoke_start query session)
       = (agent_executor,
          mkState query session (Some "COMPLEX") [fallback_task pending] ∅ [] "")
    /\ a (mkState query session (Some "COMPLEX") [fallback_task running] ∅ [] "")
         (fallback_task running) = Returned r
    /\ supersteps C 3 (invoke_start query session)
       = (answer_generator,
          mkState query session (Some "COMPLEX") [fallback_task completed]
                  (<["fallback_task_1" := r]> ∅) [] "")
    /\ supersteps C 4 (invoke_start query session)
       = (END,
          mkState query session (Some "COMPLEX") [fallback_task completed]
                  (<["fallback_task_1" := r]> ∅) [] answer).
Proof.
  intros Hsimple Hoos Hplan Hreg Hret fallback_task.
  set (s1 := mkState query session (Some "COMPLEX") [] ∅ [] "").
  set (s2 := mkState query session (Some "COMPLEX") [fallback_task pending] ∅ [] "").
  assert (H1 : superstep C (invoke_start query session) = (planner, s1)).
  { unfold invoke_start. cbn [superstep]. unfold router_node.
    cbn [initial_state original_query].
    destruct (classifier_llm C query) as [content|m] eqn:E; [|reflexivity].
    cbn [snd apply_update upd_query_complexity default].
    destruct (String.eqb_spec content "SIMPLE") as [->|Hs]; [contradiction|].
    destruct (String.eqb_spec content "OOS") as [->|Ho]; [contradiction|].
    destruct (String.eqb_spec content "COMPLEX") as [->|Hc]; [reflexivity|].
    unfold Str.mem. cbn [existsb].
    apply String.eqb_neq in Hs, Ho, Hc. rewrite Hs, Ho, Hc. reflexivity. }
  assert (H2 : superstep C (planner, s1) = (agent_executor, s2)).
  { cbn [superstep]. unfold planner_node, planner_except. cbn [original_query s1].
    destruct (planner_llm C query) as [[tasks|]|m] eqn:E;
      [now destruct (Hplan tasks) | reflexivity | reflexivity]. }
  assert (Hrec : exists message,
             error_log (fst (planner_node C s1))
             = [mkError "planning" "planner" "llm_planning" "PLANNING_ERROR" message 0]
             /\ upd_error_log (snd (planner_node C s1)) = None).
  { unfold planner_node, planner_except. cbn [original_query s1].
    destruct (planner_llm C query) as [[tasks|]|m] eqn:E;
      [now destruct (Hplan tasks) | |]; eexists; split; reflexivity. }
  destruct Hrec as (message & Hrec & Hupd). exists message.
  destruct (Hret (running_state s2 0) (with_status running (fallback_task pending)))
    as [r Hr].
  exists r.
  set (s3 := mkState query session (Some "COMPLEX") [fallback_task completed]
                     (<["fallback_task_1" := r]> ∅) [] "").
  assert (H3 : superstep C (agent_executor, s2) = (answer_generator, s3)).
  { cbn [superstep].
    rewrite (executor_picks C s2 0 (fallback_task pending)) by reflexivity.
    cbv zeta. unfold dispatch. cbn [agent with_status fallback_task].
    rewrite Hreg.
    change (a (running_state s2 0)
              (mkTask "fallback_task_1" "知识库agent" "金融知识查询" [("query", query)]
                      None running)) with
      (a (running_state s2 0) (with_status running (fallback_task pending))).
    rewrite Hr. reflexivity. }
  assert (H4 : exists answer,
             superstep C (answer_generator, s3)
             = (END, mkState query session (Some "COMPLEX") [fallback_task completed]
                             (<["fallback_task_1" := r]> ∅) [] answer)).
  { cbn [superstep]. unfold answer_generator_node.
    destruct (answer_llm C s3) as [final|m]; eexists; reflexivity. }
  destruct H4 as [answer H4]. exists answer.
  assert (E1 : supersteps C 1 (invoke_start query session) = (planner, s1))
    by (cbn [supersteps]; exact H1).
  assert (E2 : supersteps C 2 (invoke_start query session) = (agent_executor, s2))
    by (cbn [supersteps]; now rewrite H1, H2).
  assert (E3 : supersteps C 3 (invoke_start query session) = (answer_generator, s3))
    by (cbn [supersteps]; now rewrite H1, H2, H3).
  split; [exact E1|]. split; [exact Hrec|]. split; [exact Hupd|].
  split; [exact E2|]. split; [exact Hr|]. split; [exact E3|].
  cbn [supersteps]. now rewrite H1, H2, H3, H4.
Qed.

Lemma planning_failure_run_witness :
  let C := mkCollab placeholder_critical (<["知识库agent" := answering_agent]> ∅)
                    (fun _ => Raised "LLM unavailable")
                    (fun _ => Raised "LLM unavailable")
                    (fun _ => Raised "LLM unavailable")
                    (fun _ => "summary") (fun _ => "sorry") in
  let fallback_task := mkTask "fallback_task_1" "知识库agent" "金融知识查询"
                              [("query", "q")] None in
  exists message r answer,
    supersteps C 1 (invoke_start "q" "s")
    = (planner, mkState "q" "s" (Some "COMPLEX") [] ∅ [] "")
    /\ error_log (fst (planner_node C (mkState "q" "s" (Some "COMPLEX") [] ∅ [] "")))
       = [mkError "planning" "planner" "llm_planning" "PLANNING_ERROR" message 0]
    /\ upd_error_log (snd (planner_node C (mkState "q" "s" (Some "COMPLEX")
                                                   [] ∅ [] ""))) = None
    /\ supersteps C 2 (invoke_start "q" "s")
       = (agent_executor,
          mkState "q" "s" (Some "COMPLEX") [fallback_task pending] ∅ [] "")
    /\ answering_agent
         (mkState "q" "s" (Some "COMPLEX") [fallback_task running] ∅ [] "")
         (fallback_task running) = Returned r
    /\ supersteps C 3 (invoke_start "q" "s")
       = (answer_generator,
          mkState "q" "s" (Some "COMPLEX") [fallback_task completed]
                  (<["fallback_task_1" := r]> ∅) [] "")
    /\ supersteps C 4 (invoke_start "q" "s")
       = (END,
          mkState "q" "s" (Some "COMPLEX") [fallback_task completed]
                  (<["fallback_task_1" := r]> ∅) [] answer).
Proof.
  intros C.
  apply (planning_failure_run C "q" "s" answering_agent).
  - discriminate.
  - discriminate.
  - discriminate.
  - reflexivity.
  - intros s t. now eexists.
Defined.

(** ** Skipping a task, and where the terminal nodes are entered *)

Lemma fresh_last_record_survives_executor C s e :
  last (error_log s) = Some e -> retry_count e = 0 ->
  exists e', last (error_log (fst (agent_executor_node C s))) = Some e'
             /\ retry_count e' = 0.
Proof.
  intros Hlast Hrc.
  destruct (executor_cases C s) as [-> | [(i & t & r & _ & _ & _ & ->)
                                         | (i & t & m & _ & _ & _ & ->)]].
  - now exists e.
  - now exists e.
  - eexists. split; [apply last_snoc | reflexivity].
Qed.

(** X16.  When the policy decides CONTINUE, the remediation node marks the
    first task that has the record's task id FAILED (no task when the id is
    not in the plan), leaves the results alone and appends one TASK_SKIPPED
    record with retry_count 0.  That record is fresh for the routing test,
    so the executor pass that follows is itself followed by remediation,
    whatever it does. *)
Theorem continue_action_skips_task (C : Collaborators) (s : GraphState)
    (e : ErrorRecord) :
  last (error_log s) = Some e ->
  _determine_remediation_action C s e = continue ->
  let s' := fst (remediation_node C s) in
  task_plan s'
  = match get_task_by_id s (err_task_id e) with
    | Some (i, _) => alter (with_status failed) i (task_plan s)
    | None => task_plan s
    end
  /\ error_log s'
     = error_log s
       ++ [mkError (err_task_id e) "remediation" "continue" "TASK_SKIPPED"
             ("Skipping task " +:+ err_task_id e +:+ " due to unrecoverable "
              +:+ error_type e) 0]
  /\ agent_results s' = agent_results s
  /\ fst (step C (agent_executor, s')) = remediation.
Proof.
  intros Hlast Hact s'.
  assert (Hs' : s' = fst (_handle_continue s e)).
  { subst s'. unfold remediation_node. now rewrite Hlast, Hact. }
  assert (Hlog : error_log s'
                 = error_log s
                   ++ [mkError (err_task_id e) "remediation" "continue" "TASK_SKIPPED"
                         ("Skipping task " +:+ err_task_id e +:+ " due to unrecoverable "
                          +:+ error_type e) 0]).
  { rewrite Hs'. unfold _handle_continue.
    now destruct (get_task_by_id s (err_task_id e)) as [[i t]|]. }
  split; [|split; [exact Hlog|split]].
  - rewrite Hs'. unfold _handle_continue.
    now destruct (get_task_by_id s (err_task_id e)) as [[i t]|].
  - rewrite Hs'. unfold _handle_continue.
    now destruct (get_task_by_id s (err_task_id e)) as [[i t]|].
  - destruct (fresh_last_record_survives_executor C s'
                (mkError (err_task_id e) "remediation" "continue" "TASK_SKIPPED"
                   ("Skipping task " +:+ err_task_id e +:+ " due to unrecoverable "
                    +:+ error_type e) 0)) as (e' & Hl & Hz).
    + rewrite Hlog. apply last_snoc.
    + reflexivity.
    + unfold step, _route_after_execution. cbn [fst]. now rewrite Hl, Hz.
Qed.

Lemma continue_action_skips_task_witness :
  let e := mkError "T1" "A" "x" "UNKNOWN_ERROR" "boom" 0 in
  let s := first_failed_state in
  let s' := fst (remediation_node blocked_scenario s) in
  task_plan s'
  = match get_task_by_id s "T1" with
    | Some (i, _) => alter (with_status failed) i (task_plan s)
    | None => task_plan s
    end
  /\ error_log s'
     = error_log s
       ++ [mkError "T1" "remediation" "continue" "TASK_SKIPPED"
             "Skipping task T1 due to unrecoverable UNKNOWN_ERROR" 0]
  /\ agent_results s' = agent_results s
  /\ fst (step blocked_scenario (agent_executor, s')) = remediation.
Proof.
  intros e s.
  apply (continue_action_skips_task blocked_scenario s e); reflexivity.
Defined.

(** The fallback node is entered only from the router, on the label OOS. *)
Lemma fallback_entry C n s :
  fst (step C (n, s)) = fallback ->
  n = router /\ query_complexity (snd (step C (n, s))) = Some "OOS".
Proof.
  intros H. pose proof (successor C n s) as Hs.
  destruct n; try (rewrite H in Hs; simpl in Hs; intuition discriminate).
  split; [reflexivity|]. clear Hs. revert H. cbn [step fst snd].
  unfold router_node, _route_after_classification.
  destruct (classifier_llm C (original_query s)) as [content|m]; cbn.
  - unfold Str.mem. cbn [existsb].
    destruct (String.eqb_spec content "SIMPLE") as [->|Hs]; [discriminate|].
    destruct (String.eqb_spec content "COMPLEX") as [->|Hc]; [discriminate|].
    destruct (String.eqb_spec content "OOS") as [->|Ho]; [reflexivity | discriminate].
  - discriminate.
Qed.

(** X17.  On every run the fallback node is entered only with the label
    OOS: whenever the node to run is the fallback node, exactly one step has
    been made, [query_complexity] is OOS, and the plan, the results and the
    error log are empty.  The fallback node's response for other labels is
    therefore never produced by this graph. *)
Theorem fallback_only_for_oos (C : Collaborators) (query session : string) (k : nat) :
  fst (run C k (invoke_start query session)) = fallback ->
  k = 1
  /\ snd (run C k (invoke_start query session))
     = mkState query session (Some "OOS") [] ∅ [] "".
Proof.
  intros H. destruct k as [|k]; [discriminate|].
  rewrite run_succ in H |- *.
  destruct (run C k (invoke_start query session)) as [n s] eqn:E.
  destruct (fallback_entry C n s H) as [-> Hq].
  assert (Hk : k = 0).
  { destruct k as [|k]; [reflexivity|]. exfalso.
    rewrite run_succ in E.
    destruct (run C k (invoke_start query session)) as [n' s'].
    apply (successor_not_router C n' s'). now rewrite E. }
  subst k. split; [reflexivity|].
  cbn [run invoke_start] in E. injection E as <-.
  revert Hq. cbn [step snd fst]. unfold router_node.
  cbn [initial_state original_query].
  destruct (classifier_llm C query) as [content|m]; cbn.
  - now intros ->.
  - discriminate.
Qed.

Lemma fallback_only_for_oos_witness :
  let C := mkCollab placeholder_critical ∅ (fun _ => Returned "OOS")
                    (fun _ => Returned None) (fun _ => Returned "answer")
                    (fun _ => "summary") (fun _ => "sorry") in
  1 = 1
  /\ snd (run C 1 (invoke_start "weather?" "s"))
     = mkState "weather?" "s" (Some "OOS") [] ∅ [] "".
Proof.
  intros C. apply (fallback_only_for_oos C "weather?" "s" 1). reflexivity.
Defined.

(** ** The executor on a plan with unique task ids *)

Lemma alter_status_twice st st' (l : list TaskDefinition) : forall i,
  alter (with_status st) i (alter (with_status st') i l) = alter (with_status st) i l.
Proof.
  induction l as [|t l IH]; intros [|i]; try reflexivity.
  cbn [alter list_alter]. f_equal. apply IH.
Qed.

(** X18.  When the task ids of the plan are unique, an executor pass that
    runs a task changes the status of that task and of no other: the chosen
    task, which was PENDING, is COMPLETED and its id holds the agent's result
    when the agent returns, and FAILED when the agent raises. *)
Theorem executor_marks_the_chosen_task (C : Collaborators) (s : GraphState)
    (i : nat) (t : TaskDefinition) :
  NoDup (List.map task_id (task_plan s)) ->
  _get_next_executable_task s (get_pending_tasks s) = Some (i, t) ->
  let s' := fst (agent_executor_node C s) in
  task_plan s !! i = Some t /\ status t = pending
  /\ match dispatch C (running_state s i) (with_status running t) with
     | Returned r =>
         task_plan s' = alter (with_status completed) i (task_plan s)
         /\ agent_results s' !! task_id t = Some r
     | Raised m =>
         task_plan s' = alter (with_status failed) i (task_plan s)
         /\ agent_results s' = agent_results s
     end.
Proof.
  intros Hnd Hnext s'.
  destruct (next_executable_some s i t Hnext) as (Hi & Hst & _).
  split; [exact Hi|]. split; [exact Hst|].
  assert (Hget : get_task_by_id (running_state s i) (task_id t)
                 = Some (i, with_status running t)).
  { unfold get_task_by_id.
    change (task_id t) with (task_id (with_status running t)).
    rewrite (find_by_id_unique _ 0 i (with_status running t)); [reflexivity| |].
    - unfold running_state, set_task_status. cbn [task_plan with_task_plan].
      now rewrite map_task_id_alter.
    - unfold running_state, set_task_status. cbn [task_plan with_task_plan].
      rewrite list_lookup_alter, decide_True by reflexivity. now rewrite Hi. }
  subst s'. rewrite (executor_picks C s i t Hnext). cbv zeta.
  destruct (dispatch C (running_state s i) (with_status running t)) as [r|m].
  - cbn [fst]. unfold mark_task_completed. rewrite Hget. cbn. split.
    + apply alter_status_twice.
    + apply lookup_insert_eq.
  - cbn [fst]. unfold mark_task_failed. rewrite Hget. cbn. split; [|reflexivity].
    apply alter_status_twice.
Qed.

Lemma executor_marks_the_chosen_task_witness :
  let s := retried_state 0 in
  let t := mkTask "T1" "A" "x" [] None pending in
  let s' := fst (agent_executor_node flaky_scenario s) in
  task_plan s !! 0 = Some t /\ status t = pending
  /\ match dispatch flaky_scenario (running_state s 0) (with_status running t) with
     | Returned r =>
         task_plan s' = alter (with_status completed) 0 (task_plan s)
         /\ agent_results s' !! task_id t = Some r
     | Raised m =>
         task_plan s' = alter (with_status failed) 0 (task_plan s)
         /\ agent_results s' = agent_results s
     end.
Proof.
  intros s t.
  apply (executor_marks_the_chosen_task flaky_scenario s 0 t).
  - apply (bool_decide_unpack _). vm_compute. exact I.
  - reflexivity.
Defined.

(** ** When the answer generator is entered *)

Lemma complete_leaves_no_pending s e :
  get_pending_tasks (fst (_handle_complete s e)) = [].
Proof.
  apply no_pending_tasks. intros i t' Hl.
  unfold _handle_complete in Hl. cbn [fst] in Hl.
  cbn [add_error with_error_log with_task_plan task_plan] in Hl.
  rewrite lookup_map in Hl. destruct (task_plan s !! i) as [t|]; [|discriminate].
  injection Hl as <-. destruct (status t) eqn:E; cbn; congruence.
Qed.

Lemma critical_decision_is_complete C s e :
  has_critical_errors C s = true -> _determine_remediation_action C s e = complete.
Proof. intros H. unfold _determine_remediation_action. now rewrite H. Qed.

Lemma remediation_to_answer_generator C s :
  critical_stable C -> error_log s <> [] ->
  fst (step C (remediation, s)) = answer_generator ->
  get_pending_tasks (fst (remediation_node C s)) = [].
Proof.
  intros Hstable Hlog. cbn [step fst].
  destruct (has_critical_errors C (fst (remediation_node C s))) eqn:Hc.
  - intros _. rewrite Hstable in Hc. unfold remediation_node.
    destruct (last (error_log s)) as [e|] eqn:Hlast.
    + rewrite (critical_decision_is_complete C s e Hc). apply complete_leaves_no_pending.
    + apply last_None in Hlast. contradiction.
  - unfold _route_after_remediation. rewrite Hc.
    destruct (last (error_log (fst (remediation_node C s)))) as [m|] eqn:Hlast.
    + destruct (Str.mem (error_type m) ["API_TIMEOUT"; "NETWORK_ERROR"]
                && Nat.ltb (retry_count m) 3); [discriminate|].
      destruct (String.eqb (error_type m) "INVALID_STOCK_CODE"
                && Nat.ltb 1 (length (task_plan (fst (remediation_node C s)))));
        [discriminate|].
      now destruct (get_pending_tasks (fst (remediation_node C s))).
    + intros _. exfalso. apply last_None in Hlast.
      destruct (remediation_cases C s) as [Hsame | (l & m & Hl & _)].
      * rewrite Hsame in Hlast. contradiction.
      * rewrite Hl in Hlast. now destruct l.
Qed.

Lemma entry_invariant C n s :
  critical_stable C ->
  (n = remediation -> error_log s <> []) ->
  (fst (step C (n, s)) = answer_generator ->
   get_pending_tasks (snd (step C (n, s))) = [])
  /\ (fst (step C (n, s)) = remediation -> error_log (snd (step C (n, s))) <> []).
Proof.
  intros Hstable Hlog. pose proof (successor C n s) as Hs.
  destruct n; try (split; intros H; rewrite H in Hs; simpl in Hs; intuition discriminate).
  - (* agent_executor *)
    clear Hs. cbn [step fst snd]. unfold _route_after_execution.
    destruct (last (error_log (fst (agent_executor_node C s)))) as [e|] eqn:Hlast.
    + destruct (Nat.eqb (retry_count e) 0).
      * split; [discriminate|]. intros _ Hnil. now rewrite Hnil in Hlast.
      * destruct (get_pending_tasks (fst (agent_executor_node C s)));
          split; try discriminate; reflexivity.
    + destruct (get_pending_tasks (fst (agent_executor_node C s)));
        split; try discriminate; reflexivity.
  - (* remediation *)
    split.
    + intros H. cbn [step snd]. apply remediation_to_answer_generator;
        [exact Hstable | now apply Hlog | exact H].
    + intros H. rewrite H in Hs. simpl in Hs. intuition discriminate.
Qed.

(** X19.  Provided the critical-error predicate gives the same answer
    before and after a remediation pass, the answer generator is entered
    only when no task of the plan is PENDING: on every run, whenever the
    node to run is the answer generator, the state has no PENDING task. *)
Theorem synthesis_sees_no_pending_task (C : Collaborators) (query session : string)
    (k : nat) :
  critical_stable C ->
  fst (run C k (invoke_start query session)) = answer_generator ->
  get_pending_tasks (snd (run C k (invoke_start query session))) = [].
Proof.
  intros Hstable.
  assert (Hinv : (fst (run C k (invoke_start query session)) = answer_generator ->
                  get_pending_tasks (snd (run C k (invoke_start query session))) = [])
                 /\ (fst (run C k (invoke_start query session)) = remediation ->
                     error_log (snd (run C k (invoke_start query session))) <> [])).
  { induction k as [|k [_ IH]]; [split; discriminate|].
    rewrite run_succ.
    destruct (run C k (invoke_start query session)) as [n s].
    now apply entry_invariant. }
  apply Hinv.
Qed.

Lemma placeholder_critical_stable agents plan :
  critical_stable (scenario agents plan).
Proof.
  intros s. cbn [has_critical_errors scenario scenario_with].
  unfold placeholder_critical, remediation_node.
  destruct (last (error_log s)) as [e|] eqn:Hlast; [|reflexivity].
  destruct (_determine_remediation_action (scenario agents plan) s e).
  - unfold _handle_retry.
    destruct (get_task_by_id s (err_task_id e)) as [[i t]|]; [|reflexivity].
    cbn [fst]. unfold add_error, set_latest_retry_count.
    cbn [error_log set_task_status with_task_plan with_error_log].
    apply last_Some in Hlast as [l Hl]. rewrite Hl, alter_last.
    rewrite !existsb_app. cbn. now rewrite !orb_false_r.
  - unfold _handle_replan. cbn [fst]. cbn.
    rewrite existsb_app. cbn. rewrite orb_false_r.
    now destruct (get_task_by_id s (err_task_id e)) as [[i t]|].
  - unfold _handle_continue. cbn [fst]. cbn.
    rewrite existsb_app. cbn. rewrite orb_false_r.
    now destruct (get_task_by_id s (err_task_id e)) as [[i t]|].
  - unfold _handle_complete. cbn [fst]. cbn.
    rewrite existsb_app. cbn. now rewrite orb_false_r.
Qed.

Lemma synthesis_sees_no_pending_task_witness :
  get_pending_tasks (snd (run (answering_scenario chained_plan) 4 (invoke_start "q" "s")))
  = [].
Proof.
  apply (synthesis_sees_no_pending_task (answering_scenario chained_plan) "q" "s" 4).
  - apply placeholder_critical_stable.
  - reflexivity.
Defined.

(** ** An agent's own checks *)

Lemma contains_prefix_app kw r : Str.contains kw (kw +:+ r) = true.
Proof. apply prefix_contains, prefix_app_refl. Qed.

(** X20.  The stock selection agent calls a tool only when the task's tool
    is one of its two tools and is registered, and then with the prepared
    inputs (which carry the session id); the tool's outcome is the agent's
    outcome.  Otherwise it raises before any tool is called.  As the
    executor classifies them, its "cannot execute tool" message is never an
    LLM_ERROR or UNKNOWN_ERROR, and its "Tool ... not found" message is
    never an AGENT_ERROR, LLM_ERROR or UNKNOWN_ERROR. *)
Theorem stock_selection_agent_checks (tools : gmap string Tool) (name : string)
    (s : GraphState) (t : TaskDefinition) :
  let outcome := stock_selection_execute_task tools name s t in
  (outcome = Raised (cannot_execute name (tool t))
   /\ ~ In (tool t) stock_selection_tools
   \/ outcome = Raised (tool_not_found (tool t))
      /\ In (tool t) stock_selection_tools /\ tools !! tool t = None
   \/ exists tl, In (tool t) stock_selection_tools
                 /\ tools !! tool t = Some tl
                 /\ outcome = tl (prepare_inputs s t)
                 /\ dict_get "session_id" (prepare_inputs s t) = Some (session_id s))
  /\ In (_classify_error (cannot_execute name (tool t)))
        ["NETWORK_ERROR"; "RATE_LIMIT_ERROR"; "AUTH_ERROR"; "INVALID_INPUT"; "AGENT_ERROR"]
  /\ In (_classify_error (tool_not_found (tool t)))
        ["NETWORK_ERROR"; "RATE_LIMIT_ERROR"; "AUTH_ERROR"; "INVALID_INPUT"].
Proof.
  cbv zeta. split; [|split].
  - unfold stock_selection_execute_task, validate_task, get_tool.
    destruct (Str.mem (tool t) stock_selection_tools) eqn:Hmem; cbn [negb].
    + apply mem_In in Hmem.
      destruct (tools !! tool t) as [tl|] eqn:Htl.
      * right. right. exists tl. repeat split; try assumption.
        unfold prepare_inputs. apply dict_get_set_eq.
      * right. left. now repeat split.
    + left. split; [reflexivity|]. intros Hin. apply mem_In in Hin. congruence.
  - assert (H : Str.any_in ["agent"; "tool"] (Str.lower (cannot_execute name (tool t)))
                = true).
    { unfold cannot_execute.
      unfold Str.any_in. cbn [existsb].
      match goal with |- context [Str.lower ("Agent " +:+ ?r)] =>
        change (Str.lower ("Agent " +:+ r)) with ("agent" +:+ String " " (Str.lower r))
      end.
      now rewrite contains_prefix_app. }
    unfold _classify_error. rewrite H.
    repeat match goal with |- context [if ?b then _ else _] => destruct b end;
      simpl; tauto.
  - assert (H : Str.any_in ["invalid"; "not found"; "does not exist"]
                  (Str.lower (tool_not_found (tool t))) = true).
    { unfold tool_not_found.
      change (Str.lower ("Tool " +:+ tool t +:+ " not found"))
        with ("tool " +:+ Str.lower (tool t +:+ " not found")).
      rewrite (lower_app (tool t) " not found") by reflexivity.
      unfold Str.any_in. cbn [existsb].
      rewrite (contains_app_r "not found" "tool ").
      - now rewrite orb_true_r.
      - now apply contains_app_r. }
    unfold _classify_error. rewrite H.
    repeat match goal with |- context [if ?b then _ else _] => destruct b end;
      simpl; tauto.
Qed.

(** ** A provider that recovers *)

Section RecoveringRun.

Variable n : nat.

Lemma recovering_executor_fails k :
  k < n ->
  fst (agent_executor_node (recovering_scenario n) (retried_state k)) = failed_state k.
Proof.
  intros Hk.
  rewrite (executor_picks (recovering_scenario n) (retried_state k) 0
             (mkTask "T1" "A" "x" [] None pending)) by reflexivity.
  cbv zeta. unfold dispatch.
  change (get_agent (recovering_scenario n)
            (agent (with_status running (mkTask "T1" "A" "x" [] None pending))))
    with (Some (recovering_agent n)).
  unfold recovering_agent.
  change (error_log (running_state (retried_state k) 0)) with (retried_log k).
  rewrite count_retry_markers_retried_log.
  apply Nat.ltb_lt in Hk. rewrite Hk. reflexivity.
Qed.

Lemma recovering_executor_succeeds :
  fst (agent_executor_node (recovering_scenario n) (retried_state n))
  = mkState "q" "s" (Some "COMPLEX") [mkTask "T1" "A" "x" [] None completed]
            (<["T1" := "ok"]> ∅) (retried_log n) "".
Proof.
  rewrite (executor_picks (recovering_scenario n) (retried_state n) 0
             (mkTask "T1" "A" "x" [] None pending)) by reflexivity.
  cbv zeta. unfold dispatch.
  change (get_agent (recovering_scenario n)
            (agent (with_status running (mkTask "T1" "A" "x" [] None pending))))
    with (Some (recovering_agent n)).
  unfold recovering_agent.
  change (error_log (running_state (retried_state n) 0)) with (retried_log n).
  rewrite count_retry_markers_retried_log, Nat.ltb_irrefl. reflexivity.
Qed.

Lemma recovering_remediation k :
  fst (remediation_node (recovering_scenario n) (failed_state k)) = retried_state (S k).
Proof.
  unfold remediation_node.
  unfold failed_state at 1. cbn [error_log state_of]. rewrite last_snoc.
  unfold _determine_remediation_action.
  cbn [has_critical_errors recovering_scenario scenario scenario_with].
  destruct (flaky_states_not_critical k) as [-> _].
  cbn [error_type Str.mem existsb].
  change (String.eqb "NETWORK_ERROR" "API_TIMEOUT"
          || (String.eqb "NETWORK_ERROR" "NETWORK_ERROR" || false)) with true.
  cbn [retry_count Nat.ltb Nat.leb andb].
  unfold _handle_retry, retried_state. rewrite retried_log_succ.
  cbn [fst]. unfold add_error, set_latest_retry_count.
  cbn [err_task_id].
  change (get_task_by_id _ "T1")
    with (Some (0, mkTask "T1" "A" "x" [] None failed)).
  unfold failed_state.
  cbn [error_log set_task_status with_task_plan with_error_log state_of].
  rewrite alter_last. rewrite <- app_assoc. reflexivity.
Qed.

Lemma recovering_round k :
  k < n ->
  run (recovering_scenario n) 2 (agent_executor, retried_state k)
  = (agent_executor, retried_state (S k)).
Proof.
  intros Hk. cbn [run]. unfold step at 2.
  rewrite (recovering_executor_fails k Hk).
  assert (Hroute : _route_after_execution (failed_state k) = exec_error).
  { unfold _route_after_execution, failed_state. cbn [error_log state_of].
    now rewrite last_snoc. }
  rewrite Hroute. cbn [edge_after_execution]. unfold step.
  rewrite recovering_remediation.
  unfold _route_after_remediation.
  cbn [has_critical_errors recovering_scenario scenario scenario_with].
  destruct (flaky_states_not_critical (S k)) as [_ ->].
  unfold retried_state at 1. cbn [error_log state_of].
  rewrite retried_log_succ, last_app_cons. reflexivity.
Qed.

Lemma recovering_prefix k :
  k <= n ->
  run (recovering_scenario n) (2 + 2 * k) (invoke_start "q" "s")
  = (agent_executor, retried_state k).
Proof.
  induction k as [|k IH]; intros Hk; [reflexivity|].
  replace (2 + 2 * S k) with ((2 + 2 * k) + 2) by lia.
  rewrite run_add, IH by lia. apply recovering_round. lia.
Qed.

End RecoveringRun.

(** X21.  A task whose provider fails [n] times with a network error and
    then returns is retried [n] times and the run then goes on to the answer
    generator, for every [n] for which the [4 + 2 * n] steps of the run stay
    below the recursion limit of the compiled graph (that is, up to ten
    failures): after [3 + 2 * n] steps the task is COMPLETED, its result is
    stored, and the log holds, for each failed attempt, the NETWORK_ERROR
    record (retry_count 1) followed by its RETRY_ATTEMPT marker, [n] markers
    in all. *)
Theorem recovering_task_is_retried_until_success (n : nat) :
  4 + 2 * n < recursion_limit ->
  run (recovering_scenario n) (3 + 2 * n) (invoke_start "q" "s")
  = (answer_generator,
     mkState "q" "s" (Some "COMPLEX") [mkTask "T1" "A" "x" [] None completed]
             (<["T1" := "ok"]> ∅) (retried_log n) "")
  /\ count_retry_markers "T1" (retried_log n) = n
  /\ fst (run (recovering_scenario n) (4 + 2 * n) (invoke_start "q" "s")) = END.
Proof.
  intros _.
  assert (H : run (recovering_scenario n) (3 + 2 * n) (invoke_start "q" "s")
              = (answer_generator,
                 mkState "q" "s" (Some "COMPLEX")
                         [mkTask "T1" "A" "x" [] None completed]
                         (<["T1" := "ok"]> ∅) (retried_log n) "")).
  { replace (3 + 2 * n) with ((2 + 2 * n) + 1) by lia.
    rewrite run_add, (recovering_prefix n n) by lia.
    cbn [run]. unfold step. rewrite recovering_executor_succeeds. f_equal.
    unfold _route_after_execution. cbn [error_log].
    destruct n as [|k]; [reflexivity|].
    rewrite retried_log_succ, last_app_cons. reflexivity. }
  split; [exact H|]. split; [apply count_retry_markers_retried_log|].
  replace (4 + 2 * n) with ((3 + 2 * n) + 1) by lia. now rewrite run_add, H.
Qed.

Lemma recovering_task_is_retried_until_success_witness :
  4 + 2 * 5 < recursion_limit
  /\ run (recovering_scenario 5) 13 (invoke_start "q" "s")
     = (answer_generator,
        mkState "q" "s" (Some "COMPLEX") [mkTask "T1" "A" "x" [] None completed]
                (<["T1" := "ok"]> ∅) (retried_log 5) "")
  /\ count_retry_markers "T1" (retried_log 5) = 5
  /\ fst (run (recovering_scenario 5) 14 (invoke_start "q" "s")) = END.
Proof.
  assert (Hlimit : 4 + 2 * 5 < recursion_limit) by (unfold recursion_limit; simpl; lia).
  split; [exact Hlimit|].
  exact (recovering_task_is_retried_until_success 5 Hlimit).
Defined.
